(** * DatasourceUtil: dispatcher and MySQL table introspection

    A shallow embedding of
    [org.apache.dolphinscheduler.plugin.datasource.api.utils.DatasourceUtil].

    Java references are options ([None] is [null]), exceptions are an
    outcome of every computation, and the calls a method makes on the JDBC
    objects it is handed are recorded, in order, in a trace of events.

    The methods of the task form [databus.vue] that compute are embedded in
    the module [Databus]. *)

From Stdlib Require Import String Ascii List Bool Arith ZArith Lia.
Import ListNotations.
Local Open Scope string_scope.
Local Open Scope list_scope.

(* ================================================================== *)
(** ** Java values *)

(** A [String] reference; [None] is [null]. *)
Definition jstring : Type := option string.

(** The exception classes the class can meet.  [SQLException] is the checked
    exception of the JDBC methods; the next three are unchecked; [Exception]
    stands for whatever else the connection provider throws
    ([getMySqlTables] is declared [throws Exception]). *)
Inductive Throwable : Type :=
| SQLException (msg : string)
| NullPointerException
| IllegalArgumentException (msg : string)
| PatternSyntaxException (regex : string)
| Exception (msg : string).

Inductive Outcome (A : Type) : Type :=
| Return (a : A)
| Throw (e : Throwable).
Arguments Return {A} a.
Arguments Throw {A} e.

(** [java.lang.String] as the class uses it.  [toUpperCase()] follows
    Unicode's case mapping under the default locale of the virtual machine;
    it is a parameter of the development. *)
Class JavaString : Type := {
  String_toUpperCase : string -> string
}.

(* ================================================================== *)
(** ** [DbType] and the connection parameter *)

(** The enum [org.apache.dolphinscheduler.spi.enums.DbType] is declared
    outside this class.  Its constants are the nine the [switch] of
    [getDatasourceProcessor] names; [OTHER] stands for any further constant
    of the enum (the task form [databus.vue] offers an [ICEBERG] type),
    which the [default] branch receives. *)
Inductive DbType : Type :=
| MYSQL | POSTGRESQL | HIVE | SPARK | CLICKHOUSE
| ORACLE | SQLSERVER | DB2 | PRESTO
| OTHER (name : string).

(** [Enum.toString], the constant's name. *)
Definition DbType_toString (t : DbType) : string :=
  match t with
  | MYSQL => "MYSQL" | POSTGRESQL => "POSTGRESQL" | HIVE => "HIVE"
  | SPARK => "SPARK" | CLICKHOUSE => "CLICKHOUSE" | ORACLE => "ORACLE"
  | SQLSERVER => "SQLSERVER" | DB2 => "DB2" | PRESTO => "PRESTO"
  | OTHER name => name
  end.

(** The fields of [MysqlConnectionParam] that [getMySqlTables] sets. *)
Record MysqlConnectionParam : Type := mkParam {
  jdbcUrl : jstring;
  user : jstring;
  password : jstring
}.

Definition new_MysqlConnectionParam : MysqlConnectionParam :=
  mkParam None None None.
Definition setJdbcUrl (v : jstring) (p : MysqlConnectionParam) :=
  mkParam v (user p) (password p).
Definition setUser (v : jstring) (p : MysqlConnectionParam) :=
  mkParam (jdbcUrl p) v (password p).
Definition setPassword (v : jstring) (p : MysqlConnectionParam) :=
  mkParam (jdbcUrl p) (user p) v.

(* ================================================================== *)
(** ** The JDBC objects

    An object is the bundle of its methods' behaviours: what a method does
    when called is an [Outcome], it returns or it throws, and what it throws
    may be the [SQLException] its signature declares or an unchecked
    exception.  A result set is the script of what its cursor yields:
    [while (rs.next())] walks it. *)

Inductive Cursor : Type :=
| Exhausted                      (* next() returns false *)
| NextThrows (e : Throwable)     (* next() throws *)
| Row (TABLE_NAME : Outcome jstring) (rest : Cursor).
                                 (* next() returns true; getString("TABLE_NAME") *)

Record ResultSet : Type := mkResultSet {
  rs_cursor : Cursor;
  rs_close : Outcome unit
}.

Record Statement : Type := mkStatement {
  stmt_close : Outcome unit
}.

Record DatabaseMetaData : Type := mkDatabaseMetaData {
  dmd_getTables :
    jstring -> jstring -> jstring -> list string -> Outcome ResultSet
}.

Record Connection : Type := mkConnection {
  conn_getMetaData : Outcome DatabaseMetaData;
  conn_close : Outcome unit
}.

(** [DataSourceClientProvider.getInstance()]: the external connection
    provider.  It returns a connection reference (possibly [null]) or
    throws. *)
Record DataSourceClientProvider : Type := mkProvider {
  provider_getConnection :
    DbType -> MysqlConnectionParam -> Outcome (option Connection)
}.

(** The calls a method makes, and what it prints. *)
Inductive Event : Type :=
| GetConnection (dbType : DbType) (param : MysqlConnectionParam)
| GetMetaData
| GetTables (catalog schemaPattern tableNamePattern : jstring)
            (types : list string)
| Next
| GetString (columnLabel : string)
| CloseResultSet
| CloseStatement
| CloseConnection
| PrintStackTrace (e : Throwable).

(* ================================================================== *)
(** ** The method monad: local state, a trace, and exceptions *)

Record Result (S A : Type) : Type := mkResult {
  trace : list Event;
  final : S;
  outcome : Outcome A
}.
Arguments mkResult {S A} trace final outcome.
Arguments trace {S A} r.
Arguments final {S A} r.
Arguments outcome {S A} r.

Definition M (S A : Type) : Type := S -> Result S A.

Definition ret {S A} (a : A) : M S A :=
  fun s => mkResult [] s (Return a).

Definition throw {S A} (e : Throwable) : M S A :=
  fun s => mkResult [] s (Throw e).

Definition bind {S A B} (m : M S A) (f : A -> M S B) : M S B :=
  fun s =>
    match m s with
    | mkResult t1 s1 (Return a) =>
        match f a s1 with
        | mkResult t2 s2 o => mkResult (t1 ++ t2) s2 o
        end
    | mkResult t1 s1 (Throw e) => mkResult t1 s1 (Throw e)
    end.

Declare Scope java_scope.
Delimit Scope java_scope with java.
Notation "x <- c1 ;; c2" := (bind c1 (fun x => c2))
  (at level 100, c1 at next level, right associativity) : java_scope.
Notation "c1 ;; c2" := (bind c1 (fun _ => c2))
  (at level 100, right associativity) : java_scope.
Local Open Scope java_scope.

Definition emit {S} (ev : Event) : M S unit :=
  fun s => mkResult [ev] s (Return tt).

Definition get {S} : M S S :=
  fun s => mkResult [] s (Return s).

Definition put {S} (s' : S) : M S unit :=
  fun _ => mkResult [] s' (Return tt).

(** Dereferencing a reference. *)
Definition deref {S A} (o : option A) : M S A :=
  match o with
  | Some a => ret a
  | None => throw NullPointerException
  end.

(** Calling a JDBC method: the call is recorded, then it returns or
    throws. *)
Definition invoke {S A} (ev : Event) (behaviour : Outcome A) : M S A :=
  emit ev ;;
  match behaviour with
  | Return a => ret a
  | Throw e => throw e
  end.

(** [try { body } finally { fin }]: [fin] always runs; if it throws, its
    exception replaces the outcome of [body]. *)
Definition try_finally {S A} (body : M S A) (fin : M S unit) : M S A :=
  fun s =>
    match body s with
    | mkResult t1 s1 o1 =>
        match fin s1 with
        | mkResult t2 s2 (Return _) => mkResult (t1 ++ t2) s2 o1
        | mkResult t2 s2 (Throw e') => mkResult (t1 ++ t2) s2 (Throw e')
        end
    end.

(** [try { body } catch (SQLException e) { handler }]: any other exception
    passes through. *)
Definition try_catch_SQLException {S}
    (body : M S unit) (handler : Throwable -> M S unit) : M S unit :=
  fun s =>
    match body s with
    | mkResult t1 s1 (Throw (SQLException msg)) =>
        match handler (SQLException msg) s1 with
        | mkResult t2 s2 o => mkResult (t1 ++ t2) s2 o
        end
    | r => r
    end.

Definition printStackTrace {S} (e : Throwable) : M S unit :=
  emit (PrintStackTrace e).

(* ================================================================== *)
(** ** [java.util.regex.Pattern] *)

(** The regular-expression library as the class uses it: compiling a regex
    (which fails on a syntax error) and matching a whole input against it. *)
Class JavaRegex : Type := {
  Pattern : Type;
  Pattern_compile : string -> option Pattern;
  Matcher_matches : Pattern -> string -> bool
}.

(** [Pattern.matches(regex, input)], that is
    [Pattern.compile(regex).matcher(input).matches()]. *)
Definition Pattern_matches {RX : JavaRegex} {S}
    (regex input : jstring) : M S bool :=
  r <- deref regex ;;
  match Pattern_compile r with
  | None => throw (PatternSyntaxException r)
  | Some p =>
      i <- deref input ;;
      ret (Matcher_matches p i)
  end.

(* ================================================================== *)
(** ** [close] (lines 156-178)

    Three guarded blocks, in the order cursor, statement, connection; each
    catches the [SQLException] of its close call and prints it.  An
    exception of another class is not caught: it leaves [close] from the
    block that met it. *)

Definition close {S} (conn : option Connection) (stmt : option Statement)
    (rs : option ResultSet) : M S unit :=
  match rs with
  | Some r =>
      try_catch_SQLException
        (invoke CloseResultSet (rs_close r))
        (fun e => printStackTrace e)
  | None => ret tt
  end ;;
  match stmt with
  | Some st =>
      try_catch_SQLException
        (invoke CloseStatement (stmt_close st))
        (fun e => printStackTrace e)
  | None => ret tt
  end ;;
  match conn with
  | Some c =>
      try_catch_SQLException
        (invoke CloseConnection (conn_close c))
        (fun e => printStackTrace e)
  | None => ret tt
  end.

(* ================================================================== *)
(** ** [getMySqlTables] (lines 134-154) *)

(** The locals the method assigns more than once. *)
Record Frame : Type := mkFrame {
  tables : list jstring;
  rs : option ResultSet
}.

Definition set_tables (l : list jstring) : M Frame unit :=
  f <- get ;; put (mkFrame l (rs f)).
Definition set_rs (r : option ResultSet) : M Frame unit :=
  f <- get ;; put (mkFrame (tables f) r).
Definition tables_add (name : jstring) : M Frame unit :=
  f <- get ;; put (mkFrame (tables f ++ [name]) (rs f)).

(** The loop of lines 145-149, by recursion on what the cursor still
    yields.  Both [getString] calls of an iteration read the same column of
    the same row. *)
Fixpoint while_next {RX : JavaRegex} (tablePattern : jstring) (c : Cursor)
    : M Frame unit :=
  match c with
  | Exhausted =>
      (* 145: rs.next() is false, the loop ends *)
      _ <- invoke Next (Return false) ;; ret tt
  | NextThrows e =>
      (* 145: rs.next() throws *)
      _ <- invoke (A := bool) Next (Throw e) ;; ret tt
  | Row name rest =>
      (* 145 *)
      _ <- invoke Next (Return true) ;;
      (* 146: Pattern.matches(tablePattern, rs.getString("TABLE_NAME")) *)
      n <- invoke (GetString "TABLE_NAME") name ;;
      b <- Pattern_matches tablePattern n ;;
      (if b : bool
       then
         (* 147: tables.add(rs.getString("TABLE_NAME")) *)
         n' <- invoke (GetString "TABLE_NAME") name ;; tables_add n'
       else ret tt) ;;
      while_next tablePattern rest
  end.

(** The [try] block, lines 143-149.  In line 144 the arguments are
    evaluated before the call: [user.toUpperCase()] fails on a [null] user
    after [getMetaData] has returned and before [getTables] is called. *)
Definition metadata_scan {RX : JavaRegex} {JS : JavaString}
    (conn : option Connection)
    (database tablePattern user : jstring) : M Frame unit :=
  (* 143: DatabaseMetaData dmd = conn.getMetaData() *)
  c <- deref conn ;;
  dmd <- invoke GetMetaData (conn_getMetaData c) ;;
  (* 144: rs = dmd.getTables(database, user.toUpperCase(), null,
          new String[] {"TABLE"}) *)
  u <- deref user ;;
  r <- invoke (GetTables database (Some (String_toUpperCase u)) None
                 ["TABLE"])
         (dmd_getTables dmd database (Some (String_toUpperCase u)) None
            ["TABLE"]) ;;
  set_rs (Some r) ;;
  (* 145-149 *)
  while_next tablePattern (rs_cursor r).

Definition getConnection (provider : DataSourceClientProvider)
    (dbType : DbType) (param : MysqlConnectionParam)
    : M Frame (option Connection) :=
  emit (GetConnection dbType param) ;;
  match provider_getConnection provider dbType param with
  | Return c => ret c
  | Throw e => throw e
  end.

Definition getMySqlTables {RX : JavaRegex} {JS : JavaString}
    (provider : DataSourceClientProvider)
    (url database tablePattern user password : jstring)
    : Result Frame (list jstring) :=
  ((* 135: List<String> tables = new ArrayList<>() *)
   set_tables [] ;;
   (* 136-139 *)
   let connectionParam :=
     setPassword password (setUser user (setJdbcUrl url
       new_MysqlConnectionParam)) in
   (* 140 *)
   conn <- getConnection provider MYSQL connectionParam ;;
   (* 141: ResultSet rs = null *)
   set_rs None ;;
   (* 142-152: try { ... } finally { close(conn, null, rs); } *)
   try_finally
     (metadata_scan conn database tablePattern user)
     (f <- get ;; close conn None (rs f)) ;;
   (* 153: return tables *)
   f <- get ;;
   ret (tables f))
  (mkFrame [] None).

(* ================================================================== *)
(** ** A fragment of the regular-expression language

    An instance of [JavaRegex] for concrete runs: literals, [.], the
    quantifiers [*], [+] and [?], alternation, groups, the anchors [^] and
    [$] (the very beginning and the very end of the input) and escaped
    punctuation.  A regex outside the fragment (character classes, counted
    repetition, stacked quantifiers) is not compiled by this instance. *)
Module RegexFragment.

Inductive re : Type :=
| Void
| Eps
| Chr (c : ascii)
| AnyChar
| Bol
| Eol
| Cat (r1 r2 : re)
| Alt (r1 r2 : re)
| Star (r : re).

(** Does [r] match the empty string here, at the beginning ([bol]) or the
    end ([eol]) of the input? *)
Fixpoint nullable (bol eol : bool) (r : re) : bool :=
  match r with
  | Void => false
  | Eps => true
  | Chr _ => false
  | AnyChar => false
  | Bol => bol
  | Eol => eol
  | Cat r1 r2 => nullable bol eol r1 && nullable bol eol r2
  | Alt r1 r2 => nullable bol eol r1 || nullable bol eol r2
  | Star _ => true
  end.

(** [.] matches any character but a line terminator. *)
Definition line_terminator (c : ascii) : bool :=
  Ascii.eqb c "010"%char || Ascii.eqb c "013"%char.

(** What is left of [r] once it has read [c]; [bol] says whether [c] is
    the first character of the input. *)
Fixpoint deriv (bol : bool) (c : ascii) (r : re) : re :=
  match r with
  | Void | Eps | Bol | Eol => Void
  | Chr a => if Ascii.eqb a c then Eps else Void
  | AnyChar => if line_terminator c then Void else Eps
  | Cat r1 r2 =>
      Alt (Cat (deriv bol c r1) r2)
          (if nullable bol false r1 then deriv bol c r2 else Void)
  | Alt r1 r2 => Alt (deriv bol c r1) (deriv bol c r2)
  | Star r1 => Cat (deriv bol c r1) (Star r1)
  end.

(** The whole input must be read. *)
Fixpoint full_match (bol : bool) (r : re) (s : string) : bool :=
  match s with
  | EmptyString => nullable bol true r
  | String c rest => full_match false (deriv bol c r) rest
  end.

(** A match of some substring: what [Matcher.find] would accept. *)
Definition find_match (r : re) (s : string) : bool :=
  full_match true (Cat (Star AnyChar) (Cat r (Star AnyChar))) s.

Definition quantifier (c : ascii) : bool :=
  Ascii.eqb c "*"%char || Ascii.eqb c "+"%char || Ascii.eqb c "?"%char.

(** At most one quantifier after an atom. *)
Definition postfix (r : re) (s : list ascii) : option (re * list ascii) :=
  match s with
  | q :: s' =>
      if quantifier q then
        match s' with
        | q' :: _ => if quantifier q' then None else
            Some (if Ascii.eqb q "*"%char then Star r
                  else if Ascii.eqb q "+"%char then Cat r (Star r)
                  else Alt r Eps, s')
        | [] =>
            Some (if Ascii.eqb q "*"%char then Star r
                  else if Ascii.eqb q "+"%char then Cat r (Star r)
                  else Alt r Eps, s')
        end
      else Some (r, s)
  | [] => Some (r, s)
  end.

Definition unsupported (c : ascii) : bool :=
  Ascii.eqb c "["%char || Ascii.eqb c "]"%char ||
  Ascii.eqb c "{"%char || Ascii.eqb c "}"%char.

Definition alphanumeric (c : ascii) : bool :=
  let n := nat_of_ascii c in
  (((48 <=? n) && (n <=? 57)) || ((65 <=? n) && (n <=? 90)) ||
   ((97 <=? n) && (n <=? 122)))%nat.

(** Recursive descent; [fuel] bounds the depth. *)
Fixpoint parse_alt (fuel : nat) (s : list ascii) : option (re * list ascii) :=
  match fuel with
  | 0 => None
  | S fuel' =>
      match parse_seq fuel' s with
      | Some (r1, c :: s1) =>
          if Ascii.eqb c "|"%char then
            match parse_alt fuel' s1 with
            | Some (r2, s2) => Some (Alt r1 r2, s2)
            | None => None
            end
          else Some (r1, c :: s1)
      | other => other
      end
  end
with parse_seq (fuel : nat) (s : list ascii) : option (re * list ascii) :=
  match fuel with
  | 0 => None
  | S fuel' =>
      match s with
      | [] => Some (Eps, [])
      | c :: _ =>
          if Ascii.eqb c "|"%char || Ascii.eqb c ")"%char then Some (Eps, s)
          else
            match parse_factor fuel' s with
            | Some (r1, s1) =>
                match parse_seq fuel' s1 with
                | Some (r2, s2) => Some (Cat r1 r2, s2)
                | None => None
                end
            | None => None
            end
      end
  end
with parse_factor (fuel : nat) (s : list ascii) : option (re * list ascii) :=
  match fuel with
  | 0 => None
  | S fuel' =>
      match s with
      | [] => None
      | c :: s1 =>
          if Ascii.eqb c "("%char then
            match parse_alt fuel' s1 with
            | Some (r, c' :: s2) =>
                if Ascii.eqb c' ")"%char then postfix r s2 else None
            | _ => None
            end
          else if Ascii.eqb c "\"%char then
            match s1 with
            | e :: s2 => if alphanumeric e then None else postfix (Chr e) s2
            | [] => None
            end
          else if Ascii.eqb c "."%char then postfix AnyChar s1
          else if Ascii.eqb c "^"%char then Some (Bol, s1)
          else if Ascii.eqb c "$"%char then Some (Eol, s1)
          else if quantifier c || unsupported c then None
          else postfix (Chr c) s1
      end
  end.

Definition compile (s : string) : option re :=
  let l := list_ascii_of_string s in
  match parse_alt (4 * List.length l + 4) l with
  | Some (r, []) => Some r
  | _ => None
  end.

#[export] Instance regex : JavaRegex := {|
  Pattern := re;
  Pattern_compile := compile;
  Matcher_matches := full_match true
|}.

End RegexFragment.

(* ================================================================== *)
(** ** The processors and their singletons (lines 57-65) *)

Inductive ProcessorClass : Type :=
| MysqlDatasourceProcessor
| PostgreSqlDatasourceProcessor
| HiveDatasourceProcessor
| SparkDatasourceProcessor
| ClickHouseDatasourceProcessor
| OracleDatasourceProcessor
| SqlServerDatasourceProcessor
| Db2DatasourceProcessor
| PrestoDatasourceProcessor.

(** An object of the interface [DatasourceProcessor]: its class and its
    identity. *)
Record DatasourceProcessor : Type := mkProcessor {
  processor_class : ProcessorClass;
  processor_id : nat
}.

(** [new C()]: the next identity is taken. *)
Definition new (c : ProcessorClass) (next : nat) : DatasourceProcessor * nat :=
  (mkProcessor c next, S next).

(** The [static final] fields; a reference is an option. *)
Record Statics : Type := mkStatics {
  mysqlProcessor : option DatasourceProcessor;
  postgreSqlProcessor : option DatasourceProcessor;
  hiveProcessor : option DatasourceProcessor;
  sparkProcessor : option DatasourceProcessor;
  clickhouseProcessor : option DatasourceProcessor;
  oracleProcessor : option DatasourceProcessor;
  sqlServerProcessor : option DatasourceProcessor;
  db2PROCESSOR : option DatasourceProcessor;
  prestoPROCESSOR : option DatasourceProcessor
}.

(** Class initialisation: the nine initialisers run in textual order. *)
Definition clinit (next : nat) : Statics * nat :=
  let '(p1, n1) := new MysqlDatasourceProcessor next in
  let '(p2, n2) := new PostgreSqlDatasourceProcessor n1 in
  let '(p3, n3) := new HiveDatasourceProcessor n2 in
  let '(p4, n4) := new SparkDatasourceProcessor n3 in
  let '(p5, n5) := new ClickHouseDatasourceProcessor n4 in
  let '(p6, n6) := new OracleDatasourceProcessor n5 in
  let '(p7, n7) := new SqlServerDatasourceProcessor n6 in
  let '(p8, n8) := new Db2DatasourceProcessor n7 in
  let '(p9, n9) := new PrestoDatasourceProcessor n8 in
  (mkStatics (Some p1) (Some p2) (Some p3) (Some p4) (Some p5)
             (Some p6) (Some p7) (Some p8) (Some p9), n9).

(* ================================================================== *)
(** ** [getDatasourceProcessor] (lines 102-125) *)

(** A [switch] on a [null] enum reference throws
    [NullPointerException]. *)
Definition getDatasourceProcessor (st : Statics) (dbType : option DbType)
    : Outcome (option DatasourceProcessor) :=
  match dbType with
  | None => Throw NullPointerException
  | Some MYSQL => Return (mysqlProcessor st)
  | Some POSTGRESQL => Return (postgreSqlProcessor st)
  | Some HIVE => Return (hiveProcessor st)
  | Some SPARK => Return (sparkProcessor st)
  | Some CLICKHOUSE => Return (clickhouseProcessor st)
  | Some ORACLE => Return (oracleProcessor st)
  | Some SQLSERVER => Return (sqlServerProcessor st)
  | Some DB2 => Return (db2PROCESSOR st)
  | Some PRESTO => Return (prestoPROCESSOR st)
  | Some other =>
      Throw (IllegalArgumentException
               ("datasource type illegal:" ++ DbType_toString other))
  end.

(** The engine kinds the [switch] names. *)
Definition supported (t : DbType) : bool :=
  match t with
  | OTHER _ => false
  | _ => true
  end.

(** The class registered for an engine kind. *)
Definition class_of (t : DbType) : option ProcessorClass :=
  match t with
  | MYSQL => Some MysqlDatasourceProcessor
  | POSTGRESQL => Some PostgreSqlDatasourceProcessor
  | HIVE => Some HiveDatasourceProcessor
  | SPARK => Some SparkDatasourceProcessor
  | CLICKHOUSE => Some ClickHouseDatasourceProcessor
  | ORACLE => Some OracleDatasourceProcessor
  | SQLSERVER => Some SqlServerDatasourceProcessor
  | DB2 => Some Db2DatasourceProcessor
  | PRESTO => Some PrestoDatasourceProcessor
  | OTHER _ => None
  end.

(* ================================================================== *)
(** ** Scripts of a cursor *)

(** The cursor that yields the given names and is then exhausted. *)
Fixpoint cursor_of (names : list string) : Cursor :=
  match names with
  | [] => Exhausted
  | n :: rest => Row (Return (Some n)) (cursor_of rest)
  end.

(* ================================================================== *)
(** ** A concrete world

    A MySQL server whose user [alice] owns three tables, for running the
    methods on concrete inputs. *)
Module Example.

(** [String.toUpperCase()] on strings of ASCII characters, under a default
    locale that maps the ASCII letters the usual way (any but Turkish,
    Azeri and Lithuanian).  The runs below give it such strings only. *)
Definition upper_ascii (c : ascii) : ascii :=
  let n := nat_of_ascii c in
  if ((97 <=? n) && (n <=? 122))%nat then ascii_of_nat (n - 32) else c.

Fixpoint ascii_toUpperCase (s : string) : string :=
  match s with
  | EmptyString => EmptyString
  | String c rest => String (upper_ascii c) (ascii_toUpperCase rest)
  end.

Definition ascii_strings : JavaString :=
  {| String_toUpperCase := ascii_toUpperCase |}.

Definition owned_by_alice (schemaPattern : jstring) (types : list string)
    : bool :=
  match schemaPattern, types with
  | Some s, [t] => String.eqb s "ALICE" && String.eqb t "TABLE"
  | _, _ => false
  end.

(** Metadata whose query yields [cur] for the tables of [ALICE] and nothing
    for anybody else. *)
Definition metadata (cur : Cursor) (close_rs : Outcome unit)
    : DatabaseMetaData :=
  mkDatabaseMetaData (fun catalog schemaPattern tableNamePattern types =>
    if owned_by_alice schemaPattern types
    then Return (mkResultSet cur close_rs)
    else Return (mkResultSet Exhausted close_rs)).

(** Metadata whose query fails. *)
Definition failing_metadata : DatabaseMetaData :=
  mkDatabaseMetaData (fun _ _ _ _ =>
    Throw (SQLException "Unknown database")).

Definition connection (dmd : DatabaseMetaData) (close_conn : Outcome unit)
    : Connection :=
  mkConnection (Return dmd) close_conn.

(** A provider that has a client for MySQL only. *)
Definition provider (c : Connection) : DataSourceClientProvider :=
  mkProvider (fun dbType _ =>
    match dbType with
    | MYSQL => Return (Some c)
    | _ => Throw (Exception "no client for this type")
    end).

(** A provider that cannot connect, and one that answers [null]. *)
Definition refusing : DataSourceClientProvider :=
  mkProvider (fun _ _ => Throw (Exception "Access denied")).

Definition absent : DataSourceClientProvider :=
  mkProvider (fun _ _ => Return None).

Definition three_tables : list string :=
  ["orders"; "customer_orders"; "orders_archive"].

(** Every release call fails with an [SQLException] in these worlds. *)
Definition cursor_gone : Outcome unit :=
  Throw (SQLException "cursor gone").
Definition socket_closed : Outcome unit :=
  Throw (SQLException "socket closed").

Definition healthy : Connection :=
  connection (metadata (cursor_of three_tables) cursor_gone) socket_closed.

(** The cursor yields one row and then breaks. *)
Definition breaking : Connection :=
  connection
    (metadata (Row (Return (Some "orders"))
                   (NextThrows (SQLException "link failure")))
              cursor_gone)
    socket_closed.

Definition unqueryable : Connection :=
  connection failing_metadata (Return tt).

(** A driver whose result set throws an unchecked exception when closed;
    its connection closes well. *)
Definition leaking : Connection :=
  connection (metadata (cursor_of three_tables) (Throw NullPointerException))
             (Return tt).

(** The same driver when the cursor breaks after one row. *)
Definition leaking_breaking : Connection :=
  connection
    (metadata (Row (Return (Some "orders"))
                   (NextThrows (SQLException "link failure")))
              (Throw NullPointerException))
    (Return tt).

Definition url : jstring := Some "host:3306".
Definition database : jstring := Some "reporting".
Definition alice : jstring := Some "alice".
Definition secret : jstring := Some "secret".

(** The same server with release calls that succeed, and a server on which
    [alice] owns no table. *)
Definition healthy_quiet : Connection :=
  connection (metadata (cursor_of three_tables) (Return tt)) (Return tt).

Definition empty : Connection :=
  connection (metadata Exhausted (Return tt)) (Return tt).

(** A call of [getMySqlTables] for the database [reporting] of that
    server. *)
Definition run (p : DataSourceClientProvider) (tablePattern user : jstring)
    : Result Frame (list jstring) :=
  getMySqlTables (RX := RegexFragment.regex) (JS := ascii_strings)
    p url database tablePattern user secret.

End Example.

(* ================================================================== *)
(** ** Reading a trace *)

Definition is_CloseResultSet (ev : Event) : bool :=
  match ev with CloseResultSet => true | _ => false end.
Definition is_CloseStatement (ev : Event) : bool :=
  match ev with CloseStatement => true | _ => false end.
Definition is_CloseConnection (ev : Event) : bool :=
  match ev with CloseConnection => true | _ => false end.
Definition is_PrintStackTrace (ev : Event) : bool :=
  match ev with PrintStackTrace _ => true | _ => false end.

(** The release calls. *)
Definition is_release (ev : Event) : bool :=
  match ev with
  | CloseResultSet | CloseStatement | CloseConnection => true
  | _ => false
  end.

(** The requests sent to the provider and to the metadata source. *)
Definition is_request (ev : Event) : bool :=
  match ev with
  | GetConnection _ _ | GetMetaData | GetTables _ _ _ _ => true
  | _ => false
  end.

(** How often an event of a kind occurs. *)
Definition count (p : Event -> bool) (tr : list Event) : nat :=
  List.length (filter p tr).

(** The result set the metadata query of [getMySqlTables] yields on a
    connection, when it yields one. *)
Definition query_result {JS : JavaString} (c : Connection)
    (database user : jstring) : option ResultSet :=
  match conn_getMetaData c, user with
  | Return dmd, Some u =>
      match dmd_getTables dmd database (Some (String_toUpperCase u)) None
              ["TABLE"] with
      | Return r => Some r
      | Throw _ => None
      end
  | _, _ => None
  end.

(** The requests of the [try] block: they do not involve the table
    pattern. *)
Definition query_requests {JS : JavaString} (conn : option Connection)
    (database user : jstring) : list Event :=
  match conn with
  | None => []
  | Some c =>
      GetMetaData ::
      match conn_getMetaData c, user with
      | Return _, Some u =>
          [GetTables database (Some (String_toUpperCase u)) None ["TABLE"]]
      | _, _ => []
      end
  end.

(** The pattern as the filter it is on names that are not [null]: a regex
    that is [null] or does not compile accepts nothing. *)
Definition full_matches {RX : JavaRegex} (tablePattern : jstring)
    (name : string) : bool :=
  match tablePattern with
  | Some r =>
      match Pattern_compile r with
      | Some p => Matcher_matches p name
      | None => false
      end
  | None => false
  end.

(** A predicate on events that holds of no call on the cursor's rows. *)
Definition ignores_rows (p : Event -> bool) : Prop :=
  p Next = false /\ forall col, p (GetString col) = false.

(** A predicate on events that holds of no release call and of no
    diagnostic. *)
Definition ignores_release (p : Event -> bool) : Prop :=
  p CloseResultSet = false /\ p CloseStatement = false /\
  p CloseConnection = false /\ forall e, p (PrintStackTrace e) = false.

Definition is_GetTables (ev : Event) : bool :=
  match ev with GetTables _ _ _ _ => true | _ => false end.
Definition is_GetConnection (ev : Event) : bool :=
  match ev with GetConnection _ _ => true | _ => false end.

(** The regex is usable: not [null], and it compiles. *)
Definition compiles {RX : JavaRegex} (tablePattern : jstring) : Prop :=
  exists r p, tablePattern = Some r /\ Pattern_compile r = Some p.

(* ================================================================== *)
(** ** More readings of a run of [getMySqlTables] *)

Definition is_Next (ev : Event) : bool :=
  match ev with Next => true | _ => false end.
Definition is_GetString (ev : Event) : bool :=
  match ev with GetString _ => true | _ => false end.

(** The cursor that yields the given names and then goes on as [tail]. *)
Fixpoint cursor_then (names : list string) (tail : Cursor) : Cursor :=
  match names with
  | [] => tail
  | n :: rest => Row (Return (Some n)) (cursor_then rest tail)
  end.

(** What the loop throws at the head of a cursor under a pattern that
    compiles: [next()] throws, [getString] throws, or the name is SQL
    [NULL] and [Pattern.matches] dereferences it. *)
Definition breaks (tail : Cursor) : option Throwable :=
  match tail with
  | NextThrows e => Some e
  | Row (Throw e) _ => Some e
  | Row (Return None) _ => Some NullPointerException
  | _ => None
  end.

(** What [Pattern.matches] throws for a pattern that is not usable. *)
Definition pattern_error (tablePattern : jstring) : Throwable :=
  match tablePattern with
  | None => NullPointerException
  | Some r => PatternSyntaxException r
  end.

(** Two answers of [getTables] that differ at most in how the result set
    closes. *)
Definition same_rows (a b : Outcome ResultSet) : Prop :=
  match a, b with
  | Return x, Return y => rs_cursor x = rs_cursor y
  | Throw e, Throw e' => e = e'
  | _, _ => False
  end.

(** Two connections that differ at most in how they and their result sets
    close. *)
Definition same_but_close (c1 c2 : Connection) : Prop :=
  match conn_getMetaData c1, conn_getMetaData c2 with
  | Return d1, Return d2 =>
      forall catalog schemaPattern tableNamePattern types,
        same_rows
          (dmd_getTables d1 catalog schemaPattern tableNamePattern types)
          (dmd_getTables d2 catalog schemaPattern tableNamePattern types)
  | Throw e, Throw e' => e = e'
  | _, _ => False
  end.

(** The calls of a trace, the diagnostics left out. *)
Definition calls (tr : list Event) : list Event :=
  filter (fun ev => negb (is_PrintStackTrace ev)) tr.

(* ================================================================== *)
(** ** The delegating methods (lines 72-100)

    [checkDatasourceParam], the two [buildConnectionParams], [getJdbcUrl],
    [buildDatasourceParamDTO] and [getDatasourceUniqueId] (lines 130-132)
    resolve the processor of an engine kind and call one method on it.  The interface [DatasourceProcessor], its
    implementations and the parameter classes are declared outside this
    class: what each implementation does is a parameter, by the class of
    the processor that receives the call (the class creates its processors
    with constructors without arguments and gives them no state). *)
Class ProcessorMethods (DTO Param : Type) : Type := {
  (* BaseDataSourceParamDTO.getType() *)
  DTO_getType : DTO -> option DbType;
  impl_checkDatasourceParam : ProcessorClass -> DTO -> Outcome unit;
  impl_createConnectionParams :
    ProcessorClass -> DTO -> Outcome (option Param);
  impl_createConnectionParamsJson :
    ProcessorClass -> jstring -> Outcome (option Param);
  impl_getJdbcUrl : ProcessorClass -> option Param -> Outcome jstring;
  impl_createDatasourceParamDTO :
    ProcessorClass -> jstring -> Outcome (option DTO);
  impl_getDatasourceUniqueId :
    ProcessorClass -> option Param -> option DbType -> Outcome jstring
}.

(** What a delegating method does besides returning: the method it calls
    on a processor, and the line it logs. *)
Inductive Call (Param : Type) : Type :=
| Invoked (receiver : DatasourceProcessor) (method : string)
| LoggerInfo (format : string) (argument : option Param).
Arguments Invoked {Param} receiver method.
Arguments LoggerInfo {Param} format argument.

Definition is_LoggerInfo {Param} (c : Call Param) : bool :=
  match c with LoggerInfo _ _ => true | _ => false end.

(** [getDatasourceProcessor(dbType).method(...)]: the receiver is resolved
    first; a [null] receiver cannot be called. *)
Definition on_processor {Param A} (st : Statics) (dbType : option DbType)
    (method : string) (body : ProcessorClass -> Outcome A)
    : list (Call Param) * Outcome A :=
  match getDatasourceProcessor st dbType with
  | Throw e => ([], Throw e)
  | Return None => ([], Throw NullPointerException)
  | Return (Some processor) =>
      ([Invoked processor method], body (processor_class processor))
  end.

(** Lines 72-74. *)
Definition checkDatasourceParam {DTO Param} {PM : ProcessorMethods DTO Param}
    (st : Statics) (baseDataSourceParamDTO : option DTO)
    : list (Call Param) * Outcome unit :=
  match baseDataSourceParamDTO with
  | None => ([], Throw NullPointerException)
  | Some dto =>
      on_processor st (DTO_getType dto) "checkDatasourceParam"
        (fun c => impl_checkDatasourceParam c dto)
  end.

(** Lines 81-88; [isDebugEnabled] is what [logger.isDebugEnabled()]
    answers. *)
Definition buildConnectionParams {DTO Param}
    {PM : ProcessorMethods DTO Param}
    (st : Statics) (isDebugEnabled : bool)
    (baseDataSourceParamDTO : option DTO)
    : list (Call Param) * Outcome (option Param) :=
  match baseDataSourceParamDTO with
  | None => ([], Throw NullPointerException)
  | Some dto =>
      match on_processor st (DTO_getType dto) "createConnectionParams"
              (fun c => impl_createConnectionParams c dto) with
      | (done, Return connectionParams) =>
          if isDebugEnabled
          then (done ++ [LoggerInfo "parameters map:{}" connectionParams],
                Return connectionParams)
          else (done, Return connectionParams)
      | (done, Throw e) => (done, Throw e)
      end
  end.

(** Lines 90-92. *)
Definition buildConnectionParams_json {DTO Param}
    {PM : ProcessorMethods DTO Param}
    (st : Statics) (dbType : option DbType) (connectionJson : jstring)
    : list (Call Param) * Outcome (option Param) :=
  on_processor st dbType "createConnectionParams"
    (fun c => impl_createConnectionParamsJson c connectionJson).

(** Lines 94-96. *)
Definition getJdbcUrl {DTO Param} {PM : ProcessorMethods DTO Param}
    (st : Statics) (dbType : option DbType)
    (baseConnectionParam : option Param)
    : list (Call Param) * Outcome jstring :=
  on_processor st dbType "getJdbcUrl"
    (fun c => impl_getJdbcUrl c baseConnectionParam).

(** Lines 98-100. *)
Definition buildDatasourceParamDTO {DTO Param}
    {PM : ProcessorMethods DTO Param}
    (st : Statics) (dbType : option DbType) (connectionParams : jstring)
    : list (Call Param) * Outcome (option DTO) :=
  on_processor st dbType "createDatasourceParamDTO"
    (fun c => impl_createDatasourceParamDTO c connectionParams).

(** Lines 130-132. *)
Definition getDatasourceUniqueId {DTO Param} {PM : ProcessorMethods DTO Param}
    (st : Statics) (connectionParam : option Param)
    (dbType : option DbType)
    : list (Call Param) * Outcome jstring :=
  on_processor st dbType "getDatasourceUniqueId"
    (fun c => impl_getDatasourceUniqueId c connectionParam dbType).

(** Processors for concrete runs: a parameter object is a host name and a
    port; the Hive processor rejects every parameter. *)
Module Mock.

Record dto : Type := mkDto {
  dto_type : option DbType;
  dto_host : string;
  dto_port : string
}.

Definition param : Type := (string * string)%type.

Definition check (c : ProcessorClass) (d : dto) : Outcome unit :=
  match c with
  | HiveDatasourceProcessor => Throw (IllegalArgumentException "hive")
  | _ =>
      if String.eqb (dto_host d) ""
      then Throw (IllegalArgumentException "host")
      else Return tt
  end.

#[export] Instance methods : ProcessorMethods dto param := {|
  DTO_getType := dto_type;
  impl_checkDatasourceParam := check;
  impl_createConnectionParams := fun c d =>
    match check c d with
    | Return _ => Return (Some (dto_host d, dto_port d))
    | Throw e => Throw e
    end;
  impl_createConnectionParamsJson := fun _ json =>
    match json with
    | Some j => Return (Some (j, ""))
    | None => Throw NullPointerException
    end;
  impl_getJdbcUrl := fun _ p =>
    match p with
    | Some (h, pt) => Return (Some ("jdbc://" ++ h ++ ":" ++ pt)%string)
    | None => Throw NullPointerException
    end;
  impl_createDatasourceParamDTO := fun _ json =>
    match json with
    | Some j => Return (Some (mkDto None j ""))
    | None => Throw NullPointerException
    end;
  impl_getDatasourceUniqueId := fun _ p _ =>
    match p with
    | Some (h, pt) => Return (Some (h ++ ":" ++ pt)%string)
    | None => Throw NullPointerException
    end
|}.

End Mock.

(* ================================================================== *)
(** ** The task form [databus.vue]

    The methods of the component that compute: [_verification], the watcher
    and the computed property [resourceIdArr], and [dataProcess].  What the
    component is given from outside is a parameter of each: the content of
    the editor, the answer of the parameter sub-form, the translation
    function and [searchTree] of [resourceTree]. *)
Module Databus.

(** The values a resource is known by: a numeric id, a path, or
    [undefined]. *)
Inductive JsVal : Type :=
| Undefined
| Num (n : Z)
| Str (s : string).

(** [===] on these values; the numbers are integers, so a number is
    strictly equal to itself. *)
Definition strict_eq (a b : JsVal) : bool :=
  match a, b with
  | Undefined, Undefined => true
  | Num x, Num y => Z.eqb x y
  | Str x, Str y => String.eqb x y
  | _, _ => false
  end.

(** An object with the fields [id], [name] and [res]: an entry of the
    backfilled resource list, of [allNoResources], of [noRes] and of the
    computed [resourceIdArr]. *)
Record Resource : Type := mkResource {
  r_id : JsVal;
  r_name : JsVal;
  r_res : JsVal
}.

(** A node of the resource tree in [options]; [n_isNew] is whether the
    field [isNew] was set. *)
#[warnings="-register-all"]
Inductive Node : Type := mkNode {
  n_id : JsVal;
  n_name : JsVal;
  n_fullName : JsVal;
  n_children : list Node;
  n_isNew : bool
}.

(** An object [{id: v}]. *)
Record ResourceRef : Type := mkRef { ref_id : JsVal }.

(** The fields of [data()] these methods read or write; [LP] is the type of
    the custom parameters, which the component only passes on. *)
Record Data (LP : Type) : Type := mkData {
  localParams : LP;
  resourceList : list JsVal;
  options : list Node;
  allNoResources : list Resource;
  noRes : list Resource
}.
Arguments mkData {LP} localParams resourceList options allNoResources noRes.
Arguments localParams {LP} d.
Arguments resourceList {LP} d.
Arguments options {LP} d.
Arguments allNoResources {LP} d.
Arguments noRes {LP} d.

(** What a method does to the page and to its parent, in order. *)
Inductive UiEvent (LP : Type) : Type :=
| EditorGetValue
| VerifProp
| Warning (message : string)
| EmitOnParams (resourceList : list ResourceRef) (localParams : LP)
               (rawScript : string).
Arguments EditorGetValue {LP}.
Arguments VerifProp {LP}.
Arguments Warning {LP} message.
Arguments EmitOnParams {LP} resourceList localParams rawScript.

Definition is_Warning {LP} (ev : UiEvent LP) : bool :=
  match ev with Warning _ => true | _ => false end.
Definition is_EmitOnParams {LP} (ev : UiEvent LP) : bool :=
  match ev with EmitOnParams _ _ _ => true | _ => false end.
Definition is_VerifProp {LP} (ev : UiEvent LP) : bool :=
  match ev with VerifProp => true | _ => false end.

(** A call returns, or fails with a [TypeError] (a method of [undefined]). *)
Inductive JsOutcome (A : Type) : Type :=
| Returns (a : A)
| TypeError.
Arguments Returns {A} a.
Arguments TypeError {A}.

(** [array.forEach(x => body)] over a state. *)
Definition forEach {A S : Type} (l : list A) (body : A -> S -> S) (s : S)
    : S :=
  fold_left (fun acc x => body x acc) l s.

(** [array.push(x)]. *)
Definition push {A : Type} (x : A) (l : list A) : list A := l ++ [x].

Section Methods.
Variable LP : Type.
(** [i18n.$t], and the global function [$t] that [dataProcess] calls. *)
Variable i18n_t : string -> string.
Variable global_t : string -> string.
(** [searchTree(node, id)] of [resourceTree]: a node, or nothing. *)
Variable searchTree : Node -> JsVal -> option Node.

(** [_verification()], lines 308-337.  [editor] is the module's variable of
    that name, [undefined] until [_handlerEditor] has run ([None]), with the
    text it holds; [verifProp] is what
    [this.$refs.refLocalParams._verifProp()] answers. *)
Definition _verification (editor : option string) (verifProp : bool)
    (d : Data LP) : list (UiEvent LP) * JsOutcome bool :=
  match editor with
  | None => ([], TypeError)
  | Some value =>
      (* 310: if (!editor.getValue()) *)
      if String.eqb value "" then
        ([EditorGetValue; Warning (i18n_t "Please enter script(required)")],
         Returns false)
      (* 316: if (!this.$refs.refLocalParams._verifProp()) *)
      else if negb verifProp then
        ([EditorGetValue; VerifProp], Returns false)
      (* 320: if (this.noRes.length > 0) *)
      else if (0 <? List.length (noRes d))%nat then
        ([EditorGetValue; VerifProp;
          Warning (i18n_t "Please delete all non-existent resources")],
         Returns false)
      else
        (* 325-336 *)
        let dataProcessing := map (fun v => mkRef v) (resourceList d) in
        ([EditorGetValue; VerifProp; EditorGetValue;
          EmitOnParams dataProcessing (localParams d) value],
         Returns true)
  end.

(** The watcher [resourceIdArr(arr)], lines 417-428. *)
Definition watch_resourceIdArr (arr : list Resource) (d : Data LP)
    : Data LP :=
  let result :=
    forEach arr (fun item =>
      forEach (allNoResources d) (fun item1 result =>
        if strict_eq (r_id item) (r_id item1)
        then push item1 result
        else result)) [] in
  mkData (localParams d) (resourceList d) (options d) (allNoResources d)
         result.

(** The loop that lines 366-372 and 435-441 share: for every selected
    resource and every root of the tree, the node that [searchTree] finds.
    [searchTree] is called a second time for the node that is pushed; it
    answers as the first time. *)
Definition isResourceId_of (d : Data LP) : list Node :=
  forEach (resourceList d) (fun v =>
    forEach (options d) (fun v1 isResourceId =>
      match searchTree v1 v with
      | Some found => push found isResourceId
      | None => isResourceId
      end)) [].

(** The computed property [resourceIdArr()], lines 431-447. *)
Definition resourceIdArr (d : Data LP) : list Resource :=
  if (0 <? List.length (resourceList d))%nat
  then map (fun item => mkResource (n_id item) (n_name item)
                          (n_fullName item))
           (isResourceId_of d)
  else [].

(** The node that [dataProcess] appends to the tree. *)
Definition noResources_node (children : list Node) : Node :=
  mkNode (Num (-1)) (Str (global_t "Unauthorized or deleted resources"))
         (Str ("/" ++ global_t "Unauthorized or deleted resources"))
         children false.

(** [dataProcess(backResource)], lines 362-410.  The first component of the
    result is whether [Array.prototype.diff] has been assigned (line 376);
    an object without [children] is a node without children. *)
Definition dataProcess (backResource : list Resource) (d : Data LP)
    : bool * Data LP :=
  if (0 <? List.length (resourceList d))%nat then
    let resourceIdArr := map n_id (isResourceId_of d) in
    (* 376-381: this.resourceList.diff(resourceIdArr) *)
    let diffSet :=
      filter (fun i => negb (existsb (strict_eq i) resourceIdArr))
             (resourceList d) in
    (* 382-391 *)
    let optionsCmp :=
      if (0 <? List.length diffSet)%nat then
        forEach diffSet (fun item =>
          forEach backResource (fun item1 optionsCmp =>
            if strict_eq item (r_id item1) || strict_eq item (r_res item1)
            then push item1 optionsCmp
            else optionsCmp)) []
      else [] in
    (* 392-408 *)
    if (0 <? List.length optionsCmp)%nat then
      let children :=
        map (fun item => mkNode (r_id item) (r_name item) (r_res item)
                           [] true) optionsCmp in
      (true,
       mkData (localParams d) (resourceList d)
              (options d ++ [noResources_node children])
              optionsCmp (noRes d))
    else (true, d)
  else (false, d).

(** A backfilled resource that stands for a selected resource which the
    tree search did not return: the selected value is its [id] or its
    [res]. *)
Definition orphan (backResource : list Resource) (d : Data LP)
    (x : Resource) : Prop :=
  In x backResource /\
  exists item,
    In item (resourceList d) /\
    (forall found, In found (isResourceId_of d) -> n_id found <> item) /\
    (item = r_id x \/ item = r_res x).

(** The tree node [dataProcess] makes of a backfilled resource. *)
Definition child_of (x : Resource) : Node :=
  mkNode (r_id x) (r_name x) (r_res x) [] true.

End Methods.

(** A tree search for concrete runs: the node itself or one of its
    children, by [id]. *)
Definition shallow_search (node : Node) (v : JsVal) : option Node :=
  if strict_eq (n_id node) v then Some node
  else find (fun child => strict_eq (n_id child) v) (n_children node).

Definition english (key : string) : string := key.

Definition jar : Node := mkNode (Num 7) (Str "etl.jar") (Str "/etl.jar") [] false.

(** A form with two resources selected, of which the tree holds one. *)
Definition form : Data (list string) :=
  mkData ["k=v"] [Num 7; Num 9] [jar] [] [].

Definition backfill : list Resource :=
  [mkResource (Num 7) (Str "etl.jar") (Str "etl.jar");
   mkResource (Num 9) (Str "old.jar") (Str "old.jar")].

(** The form once [dataProcess] has run on the backfilled resources. *)
Definition form_processed : Data (list string) :=
  snd (dataProcess (list string) english shallow_search backfill form).

End Databus.

(* ================================================================== *)
(** ** The release helper, run *)

(** The exception a close call lets out of its guarded block: any but an
    [SQLException], which the block catches. *)
Definition escapes (behaviour : Outcome unit) : option Throwable :=
  match behaviour with
  | Return _ => None
  | Throw (SQLException _) => None
  | Throw e => Some e
  end.

(** Whether a release call fails with the exception its block catches. *)
Definition failed (behaviour : Outcome unit) : nat :=
  match behaviour with
  | Throw (SQLException _) => 1
  | _ => 0
  end.

(** The resources handed to [close] that are not [null], in the order of
    its blocks: the release call of each, and what that call does. *)
Definition resources (conn : option Connection) (stmt : option Statement)
    (rs : option ResultSet) : list (Event * Outcome unit) :=
  match rs with
  | Some r => [(CloseResultSet, rs_close r)]
  | None => []
  end ++
  match stmt with
  | Some st => [(CloseStatement, stmt_close st)]
  | None => []
  end ++
  match conn with
  | Some c => [(CloseConnection, conn_close c)]
  | None => []
  end.

(** The first exception that escapes from a sequence of release calls. *)
Fixpoint first_escape (l : list (Event * Outcome unit)) : option Throwable :=
  match l with
  | [] => None
  | (_, behaviour) :: rest =>
      match escapes behaviour with
      | Some e => Some e
      | None => first_escape rest
      end
  end.

(** The release calls made: the sequence stops at the first call that lets
    an exception escape. *)
Fixpoint attempted (l : list (Event * Outcome unit)) : list Event :=
  match l with
  | [] => []
  | (ev, behaviour) :: rest =>
      ev :: match escapes behaviour with
            | Some _ => []
            | None => attempted rest
            end
  end.

(** What the sequence leaves in the trace: each call made, followed by the
    diagnostic of its [SQLException]. *)
Fixpoint release_events (l : list (Event * Outcome unit)) : list Event :=
  match l with
  | [] => []
  | (ev, behaviour) :: rest =>
      ev :: match behaviour with
            | Return _ => release_events rest
            | Throw (SQLException msg) =>
                PrintStackTrace (SQLException msg) :: release_events rest
            | Throw _ => []
            end
  end.

Definition release_escape (conn : option Connection)
    (stmt : option Statement) (rs : option ResultSet) : option Throwable :=
  first_escape (resources conn stmt rs).

Definition release_trace (conn : option Connection) (stmt : option Statement)
    (rs : option ResultSet) : list Event :=
  release_events (resources conn stmt rs).

(** What is left of an outcome once a [finally] block has released the
    resources: an exception that escapes from a release call replaces
    it. *)
Definition after_release {A} (conn : option Connection)
    (stmt : option Statement) (rs : option ResultSet) (o : Outcome A)
    : Outcome A :=
  match release_escape conn stmt rs with
  | Some e => Throw e
  | None => o
  end.

(** A connection none of whose close calls, its own and those of the result
    sets its metadata return, lets an exception escape: each returns or
    throws an [SQLException]. *)
Definition closes_quietly (c : Connection) : Prop :=
  escapes (conn_close c) = None /\
  forall dmd, conn_getMetaData c = Return dmd ->
    forall catalog schemaPattern tableNamePattern types r,
      dmd_getTables dmd catalog schemaPattern tableNamePattern types
        = Return r ->
      escapes (rs_close r) = None.

(** An event of a release sequence: a release call or a diagnostic. *)
Definition release_or_diagnostic (ev : Event) : Prop :=
  is_release ev = true \/ is_PrintStackTrace ev = true.

Ltac run_monad :=
  unfold try_catch_SQLException, try_finally, invoke, printStackTrace,
    set_rs, set_tables, tables_add, deref, bind, emit, get, put, ret, throw;
  cbn.

Ltac run_monad_in H :=
  unfold try_catch_SQLException, try_finally, invoke, printStackTrace,
    set_rs, set_tables, tables_add, deref, bind, emit, get, put, ret, throw
    in H;
  cbn in H.

(** Every way three resources can be: [null], or closing with a return, an
    [SQLException] or another exception. *)
Ltac each_resource rs stmt conn :=
  destruct rs as [[? [ [] | [ ? | | ? | ? | ? ] ]] | ];
  destruct stmt as [[ [ [] | [ ? | | ? | ? | ? ] ] ] | ];
  destruct conn as [[? [ [] | [ ? | | ? | ? | ? ] ]] | ].

Lemma close_run S (conn : option Connection) (stmt : option Statement)
    (rs : option ResultSet) (s : S) :
  close conn stmt rs s =
  mkResult (release_trace conn stmt rs) s
           (after_release conn stmt rs (Return tt)).
Proof.
  unfold close, release_trace, after_release, release_escape, resources.
  destruct rs as [[cur [ [] | [ m1 | | m1 | m1 | m1 ] ]] | ];
    destruct stmt as [[ [ [] | [ m2 | | m2 | m2 | m2 ] ] ] | ];
    destruct conn as [[md [ [] | [ m3 | | m3 | m3 | m3 ] ]] | ];
    reflexivity.
Qed.

Section Introspector.
Context {RX : JavaRegex} {JS : JavaString}.

(** The method, as the provider's answer, the [try] block and the release
    calls decide it. *)
Lemma getMySqlTables_run provider url database tablePattern user password :
  getMySqlTables provider url database tablePattern user password =
  let param := mkParam url user password in
  match provider_getConnection provider MYSQL param with
  | Throw e =>
      mkResult [GetConnection MYSQL param] (mkFrame [] None) (Throw e)
  | Return conn =>
      let r := metadata_scan conn database tablePattern user
                 (mkFrame [] None) in
      mkResult
        (GetConnection MYSQL param ::
         trace r ++ release_trace conn None (rs (final r)))
        (final r)
        (after_release conn None (rs (final r))
           match outcome r with
           | Return _ => Return (tables (final r))
           | Throw e => Throw e
           end)
  end.
Proof.
  unfold getMySqlTables, getConnection.
  unfold setPassword, setUser, setJdbcUrl, new_MysqlConnectionParam.
  unfold set_tables, set_rs, try_finally, bind, emit, get, put, ret, throw.
  cbn.
  destruct (provider_getConnection provider MYSQL (mkParam url user password))
    as [conn | e]; [ | reflexivity].
  cbn.
  destruct (metadata_scan conn database tablePattern user (mkFrame [] None))
    as [t1 s1 o1].
  rewrite close_run. cbn. unfold after_release.
  destruct (release_escape conn None (rs s1)); cbn;
    destruct o1; rewrite ?app_nil_r; reflexivity.
Qed.

(** *** The scan loop *)

Lemma while_next_trace p tablePattern c :
  ignores_rows p ->
  forall f, filter p (trace (while_next tablePattern c f)) = [].
Proof.
  intros [Hnext Hget].
  induction c as [ | e | name rest IH]; intros f.
  - cbn. now rewrite Hnext.
  - cbn. now rewrite Hnext.
  - cbn [while_next]. unfold Pattern_matches.
    destruct name as [[n | ] | e];
      destruct tablePattern as [r | ]; run_monad;
      rewrite ?Hnext, ?Hget; try reflexivity;
      destruct (Pattern_compile r) as [pt | ]; cbn;
      rewrite ?Hnext, ?Hget; try reflexivity.
    destruct (Matcher_matches pt n); cbn; rewrite ?Hnext, ?Hget;
      match goal with
      | |- context [while_next ?tp rest ?f'] =>
          specialize (IH f'); destruct (while_next tp rest f') as [t2 s2 o2];
          cbn in IH |- *; rewrite ?Hnext, ?Hget; exact IH
      end.
Qed.

Lemma while_next_rs tablePattern c :
  forall f, rs (final (while_next tablePattern c f)) = rs f.
Proof.
  induction c as [ | e | name rest IH]; intros f.
  - reflexivity.
  - reflexivity.
  - cbn [while_next]. unfold Pattern_matches.
    destruct name as [[n | ] | e];
      destruct tablePattern as [r | ]; run_monad; try reflexivity;
      destruct (Pattern_compile r) as [pt | ]; cbn; try reflexivity.
    destruct (Matcher_matches pt n); cbn;
      match goal with
      | |- context [while_next ?tp rest ?f'] =>
          specialize (IH f'); destruct (while_next tp rest f') as [t2 s2 o2];
          cbn in IH |- *; exact IH
      end.
Qed.

Lemma while_next_cursor_of tablePattern names :
  names = [] \/ compiles tablePattern ->
  forall f,
    let r := while_next tablePattern (cursor_of names) f in
    outcome r = Return tt /\
    tables (final r) =
      tables f ++ map Some (filter (full_matches tablePattern) names).
Proof.
  intros Hpat.
  induction names as [ | n rest IH]; intros f.
  - cbn. now rewrite app_nil_r.
  - destruct Hpat as [Hnil | (r & p & -> & Hc)]; [discriminate | ].
    assert (Hrest : rest = [] \/ compiles (Some r))
      by (right; exists r, p; auto).
    specialize (IH Hrest).
    cbn [cursor_of while_next filter full_matches map].
    unfold Pattern_matches. run_monad. rewrite !Hc. cbn.
    destruct (Matcher_matches p n); cbn;
      match goal with
      | |- context [while_next ?tp ?c ?f'] =>
          destruct (IH f') as [Ho Ht];
          destruct (while_next tp c f') as [t2 s2 o2];
          cbn in Ho, Ht |- *; split; [exact Ho | ]; rewrite Ht
      end.
    + now rewrite <- app_assoc.
    + reflexivity.
Qed.

(** The loop ends normally only on a cursor that yields names, none of
    them [null], and is then exhausted. *)
Lemma while_next_returns tablePattern c :
  forall f,
    outcome (while_next tablePattern c f) = Return tt ->
    exists names,
      c = cursor_of names /\ (names = [] \/ compiles tablePattern).
Proof.
  induction c as [ | e | name rest IH]; intros f H.
  - exists []. split; [reflexivity | now left].
  - discriminate H.
  - cbn [while_next] in H. unfold Pattern_matches in H.
    destruct name as [[n | ] | e];
      destruct tablePattern as [r | ]; run_monad_in H; try discriminate H;
      destruct (Pattern_compile r) as [pt | ] eqn:Hc; cbn in H;
      try discriminate H.
    assert (Hrest : exists f', outcome (while_next (Some r) rest f')
                               = Return tt).
    { destruct (Matcher_matches pt n); cbn in H;
        match type of H with
        | context [while_next ?tp rest ?f'] =>
            exists f'; destruct (while_next tp rest f') as [t2 s2 o2];
            cbn in H |- *; exact H
        end. }
    destruct Hrest as [f' Hf'].
    destruct (IH f' Hf') as (names & -> & _).
    exists (n :: names). split; [reflexivity | ].
    right. exists r, pt. auto.
Qed.

(** *** The [try] block *)

Lemma metadata_scan_trace p conn database tablePattern user f :
  ignores_rows p ->
  filter p (trace (metadata_scan conn database tablePattern user f)) =
  filter p (query_requests conn database user).
Proof.
  intros Hp. unfold metadata_scan, query_requests.
  destruct conn as [c | ]; [ | reflexivity]. run_monad.
  destruct (conn_getMetaData c) as [dmd | e]; [ | reflexivity].
  destruct user as [u | ]; [ | reflexivity]. cbn.
  destruct (dmd_getTables dmd database (Some (String_toUpperCase u)) None
              ["TABLE"])
    as [r | e]; cbn; [ | reflexivity].
  match goal with
  | |- context [while_next ?tp ?c ?f'] =>
      pose proof (while_next_trace p tp c Hp f') as Hw;
      destruct (while_next tp c f') as [t2 s2 o2]; cbn in Hw |- *;
      destruct (p GetMetaData); destruct (p (GetTables _ _ _ _)); cbn;
      rewrite Hw; reflexivity
  end.
Qed.

Lemma metadata_scan_rs conn database tablePattern user l :
  rs (final (metadata_scan conn database tablePattern user (mkFrame l None)))
  = match conn with
    | Some c => query_result c database user
    | None => None
    end.
Proof.
  unfold metadata_scan, query_result.
  destruct conn as [c | ]; [ | reflexivity]. run_monad.
  destruct (conn_getMetaData c) as [dmd | e]; [ | reflexivity].
  destruct user as [u | ]; [ | reflexivity]. cbn.
  destruct (dmd_getTables dmd database (Some (String_toUpperCase u)) None
              ["TABLE"])
    as [r | e]; cbn; [ | reflexivity].
  match goal with
  | |- context [while_next ?tp ?c ?f'] =>
      pose proof (while_next_rs tp c f') as Hw;
      destruct (while_next tp c f') as [t2 s2 o2]; cbn in Hw |- *; exact Hw
  end.
Qed.

Lemma metadata_scan_names c database tablePattern user r names :
  query_result c database user = Some r ->
  rs_cursor r = cursor_of names ->
  names = [] \/ compiles tablePattern ->
  let res := metadata_scan (Some c) database tablePattern user
               (mkFrame [] None) in
  outcome res = Return tt /\
  tables (final res) = map Some (filter (full_matches tablePattern) names).
Proof.
  unfold query_result, metadata_scan. intros Hq Hcur Hpat. run_monad.
  destruct (conn_getMetaData c) as [dmd | e]; [ | discriminate].
  destruct user as [u | ]; [ | discriminate]. cbn.
  destruct (dmd_getTables dmd database (Some (String_toUpperCase u)) None
              ["TABLE"])
    as [r0 | e]; [ | discriminate].
  injection Hq as ->. cbn. rewrite Hcur.
  match goal with
  | |- context [while_next ?tp ?c ?f'] =>
      destruct (while_next_cursor_of tp names Hpat f') as [Ho Ht];
      destruct (while_next tp c f') as [t2 s2 o2];
      cbn in Ho, Ht |- *; split; [exact Ho | exact Ht]
  end.
Qed.

Lemma metadata_scan_returns conn database tablePattern user f :
  outcome (metadata_scan conn database tablePattern user f) = Return tt ->
  exists c r names,
    conn = Some c /\
    query_result c database user = Some r /\
    rs_cursor r = cursor_of names /\
    (names = [] \/ compiles tablePattern).
Proof.
  unfold metadata_scan, query_result. intros H.
  destruct conn as [c | ]; [ | discriminate H]. run_monad_in H.
  exists c.
  destruct (conn_getMetaData c) as [dmd | e]; [ | discriminate H].
  destruct user as [u | ]; [ | discriminate H]. cbn in H.
  destruct (dmd_getTables dmd database (Some (String_toUpperCase u)) None
              ["TABLE"])
    as [r | e]; cbn in H; [ | discriminate H].
  exists r.
  match type of H with
  | context [while_next ?tp ?cur ?f'] =>
      destruct (while_next_returns tp cur f') as (names & Hcur & Hpat);
      [ destruct (while_next tp cur f') as [t2 s2 o2]; cbn in H |- *; exact H
      | exists names; auto ]
  end.
Qed.

Lemma metadata_scan_quiet p conn database tablePattern user f :
  ignores_rows p ->
  p GetMetaData = false ->
  (forall c s n t, p (GetTables c s n t) = false) ->
  filter p (trace (metadata_scan conn database tablePattern user f)) = [].
Proof.
  intros Hrows Hmd Hgt.
  rewrite metadata_scan_trace by assumption.
  unfold query_requests.
  destruct conn as [c | ]; [ | reflexivity].
  cbn. rewrite Hmd.
  destruct (conn_getMetaData c); [ | reflexivity].
  destruct user; [ | reflexivity].
  cbn. now rewrite Hgt.
Qed.

(** *** The release calls *)

Lemma release_trace_ignored p conn stmt rs :
  ignores_release p -> filter p (release_trace conn stmt rs) = [].
Proof.
  intros (Hrs & Hst & Hc & Hp). unfold release_trace, resources.
  each_resource rs stmt conn;
    cbn; rewrite ?Hrs, ?Hst, ?Hc, ?Hp; cbn;
    rewrite ?Hrs, ?Hst, ?Hc, ?Hp; reflexivity.
Qed.

Lemma release_trace_calls conn stmt rs :
  filter is_release (release_trace conn stmt rs) =
  attempted (resources conn stmt rs).
Proof.
  unfold release_trace, resources.
  each_resource rs stmt conn; reflexivity.
Qed.

Lemma attempted_all conn stmt rs :
  release_escape conn stmt rs = None ->
  attempted (resources conn stmt rs) =
  match rs with Some _ => [CloseResultSet] | None => [] end ++
  match stmt with Some _ => [CloseStatement] | None => [] end ++
  match conn with Some _ => [CloseConnection] | None => [] end.
Proof.
  unfold release_escape, resources.
  each_resource rs stmt conn; cbn; intros H;
    try discriminate H; reflexivity.
Qed.

Lemma release_trace_only conn stmt rs :
  Forall release_or_diagnostic (release_trace conn stmt rs).
Proof.
  unfold release_trace, resources, release_or_diagnostic.
  each_resource rs stmt conn;
    cbn; repeat (apply Forall_cons || apply Forall_nil); cbn; auto.
Qed.

Lemma release_trace_diagnostics conn stmt rs :
  release_escape conn stmt rs = None ->
  count is_PrintStackTrace (release_trace conn stmt rs) =
    match rs with Some x => failed (rs_close x) | None => 0 end +
    match stmt with Some x => failed (stmt_close x) | None => 0 end +
    match conn with Some x => failed (conn_close x) | None => 0 end.
Proof.
  unfold release_escape, release_trace, resources.
  each_resource rs stmt conn; cbn; intros H;
    try discriminate H; reflexivity.
Qed.

(** How often each resource is closed: a resource is not closed when it is
    [null] or when the close call of a resource before it lets an exception
    escape. *)
Lemma release_trace_counts conn stmt rs :
  count is_CloseResultSet (release_trace conn stmt rs) =
    match rs with Some _ => 1 | None => 0 end /\
  count is_CloseStatement (release_trace conn stmt rs) =
    match stmt with
    | Some _ =>
        match release_escape None None rs with Some _ => 0 | None => 1 end
    | None => 0
    end /\
  count is_CloseConnection (release_trace conn stmt rs) =
    match conn with
    | Some _ =>
        match release_escape None stmt rs with Some _ => 0 | None => 1 end
    | None => 0
    end.
Proof.
  unfold release_escape, release_trace, resources.
  each_resource rs stmt conn; cbn; repeat split.
Qed.

Lemma count_app p l1 l2 : count p (l1 ++ l2) = count p l1 + count p l2.
Proof. unfold count. now rewrite filter_app, length_app. Qed.

Lemma count_filter_nil p l : filter p l = [] -> count p l = 0.
Proof. unfold count. now intros ->. Qed.

(* ================================================================== *)
(** ** The release sequence *)

(** C8, as amended.  [close] tolerates [null], and it is total as long as
    the close calls it makes return or throw an [SQLException]: whichever
    of the cursor, the statement and the connection are [null], it leaves
    the caller's state alone and makes no close call for a [null]
    resource; when no close call throws anything but an [SQLException], it
    returns normally and the close call of every resource that is not
    [null] is made once, whatever the other two are and do; an exception
    of another class that a close call throws leaves [close], and the
    close calls after it are not made. *)
Theorem close_total_null_tolerant S (conn : option Connection)
    (stmt : option Statement) (rs : option ResultSet) (s : S) :
  let r := close conn stmt rs s in
  final r = s /\
  filter is_release (trace r) = attempted (resources conn stmt rs) /\
  (rs = None -> count is_CloseResultSet (trace r) = 0) /\
  (stmt = None -> count is_CloseStatement (trace r) = 0) /\
  (conn = None -> count is_CloseConnection (trace r) = 0) /\
  (release_escape conn stmt rs = None ->
   outcome r = Return tt /\
   count is_CloseResultSet (trace r) =
     match rs with Some _ => 1 | None => 0 end /\
   count is_CloseStatement (trace r) =
     match stmt with Some _ => 1 | None => 0 end /\
   count is_CloseConnection (trace r) =
     match conn with Some _ => 1 | None => 0 end) /\
  (forall e, release_escape conn stmt rs = Some e -> outcome r = Throw e) /\
  (forall x e, rs = Some x -> escapes (rs_close x) = Some e ->
     outcome r = Throw e /\ filter is_release (trace r) = [CloseResultSet]).
Proof.
  cbv zeta. rewrite close_run. cbn [outcome final trace].
  destruct (release_trace_counts conn stmt rs) as (Hrs & Hst & Hc).
  split; [reflexivity | ].
  split; [apply release_trace_calls | ].
  split; [intros ->; exact Hrs | ].
  split; [intros ->; exact Hst | ].
  split; [intros ->; exact Hc | ].
  unfold after_release. split; [ | split].
  - intros Hnone. rewrite Hnone. split; [reflexivity | ].
    split; [exact Hrs | ].
    revert Hnone Hst Hc. unfold release_escape, resources.
    each_resource rs stmt conn; cbn; intros Hnone Hst Hc;
      try discriminate Hnone; split; assumption.
  - intros e ->. reflexivity.
  - intros x e -> He. rewrite release_trace_calls.
    unfold release_escape, resources. cbn. rewrite He. split; reflexivity.
Qed.

(** C4, as amended.  In a release sequence the close calls are made in the
    order cursor, statement, connection, of the resources that are present
    (not [null]), and nothing else happens in it but diagnostics.  When no
    close call throws anything but an [SQLException], the close call of
    every resource that is present is made, whether or not an earlier one
    failed, there is one diagnostic per failed close call, and the sequence
    returns normally.  An exception of another class that a close call
    throws ends the sequence and leaves it.  Run as the [finally] block of
    a [try], the sequence leaves the block's outcome, a value or an
    exception, as it is, unless such an exception escapes, which then
    replaces it. *)
Theorem close_releases_in_order S A (conn : option Connection)
    (stmt : option Statement) (pick : S -> option ResultSet)
    (body : M S A) (s : S) :
  let r := close conn stmt (pick s) s in
  filter is_release (trace r) = attempted (resources conn stmt (pick s)) /\
  Forall release_or_diagnostic (trace r) /\
  (release_escape conn stmt (pick s) = None ->
   filter is_release (trace r) =
     match pick s with Some _ => [CloseResultSet] | None => [] end ++
     match stmt with Some _ => [CloseStatement] | None => [] end ++
     match conn with Some _ => [CloseConnection] | None => [] end /\
   count is_PrintStackTrace (trace r) =
     match pick s with Some x => failed (rs_close x) | None => 0 end +
     match stmt with Some x => failed (stmt_close x) | None => 0 end +
     match conn with Some x => failed (conn_close x) | None => 0 end /\
   outcome r = Return tt) /\
  (forall e, release_escape conn stmt (pick s) = Some e ->
             outcome r = Throw e) /\
  (forall x e, pick s = Some x -> escapes (rs_close x) = Some e ->
     filter is_release (trace r) = [CloseResultSet]) /\
  let after := body s in
  let whole := try_finally body (f <- get ;; close conn stmt (pick f)) s in
  (release_escape conn stmt (pick (final after)) = None ->
   outcome whole = outcome after) /\
  (forall e, release_escape conn stmt (pick (final after)) = Some e ->
             outcome whole = Throw e).
Proof.
  cbv zeta. rewrite close_run. cbn [outcome final trace].
  split; [apply release_trace_calls | ].
  split; [apply release_trace_only | ].
  split.
  { intros Hnone. rewrite release_trace_calls.
    split; [now apply attempted_all | ].
    split; [now apply release_trace_diagnostics | ].
    unfold after_release. now rewrite Hnone. }
  split.
  { intros e He. unfold after_release. now rewrite He. }
  split.
  { intros x e Hx He. rewrite release_trace_calls, Hx.
    unfold resources. cbn. now rewrite He. }
  unfold try_finally, bind, get.
  destruct (body s) as [t1 s1 o1]. rewrite close_run. cbn [final outcome].
  unfold after_release.
  split.
  - intros ->. reflexivity.
  - intros e ->. reflexivity.
Qed.

(* ================================================================== *)
(** ** [getMySqlTables]: release on a failed scan *)

(** C1, as amended.  When a connection was obtained and the metadata scan
    (the [try] block) raises an error, the release calls come after
    everything the scan did; the cursor is closed exactly once if the
    metadata query had returned one and not at all otherwise; no statement
    is closed, the method having none.  When no close call throws anything
    but an [SQLException], the connection is closed exactly once and the
    caller observes the error of the scan.  An exception of another class
    that a close call throws is what the caller observes instead, and the
    connection is not closed when it is the cursor's close that throws
    it. *)
Theorem getMySqlTables_releases_on_scan_error provider
    url database tablePattern user password c e :
  provider_getConnection provider MYSQL (mkParam url user password)
    = Return (Some c) ->
  outcome (metadata_scan (Some c) database tablePattern user
             (mkFrame [] None)) = Throw e ->
  let r := getMySqlTables provider url database tablePattern user password in
  let held := query_result c database user in
  count is_CloseResultSet (trace r) =
    match held with Some _ => 1 | None => 0 end /\
  count is_CloseStatement (trace r) = 0 /\
  count is_CloseConnection (trace r) =
    match release_escape None None held with Some _ => 0 | None => 1 end /\
  (exists scan release,
     trace r =
       GetConnection MYSQL (mkParam url user password) :: scan ++ release /\
     filter is_release scan = [] /\
     Forall release_or_diagnostic release) /\
  (release_escape (Some c) None held = None ->
   outcome r = Throw e /\ count is_CloseConnection (trace r) = 1) /\
  (forall e', release_escape (Some c) None held = Some e' ->
              outcome r = Throw e').
Proof.
  intros Hconn Hscan. cbv zeta.
  rewrite getMySqlTables_run. cbv zeta. rewrite Hconn, Hscan.
  cbn [outcome trace]. rewrite metadata_scan_rs.
  set (scan := trace (metadata_scan (Some c) database tablePattern user
                        (mkFrame [] None))).
  set (held := query_result c database user).
  assert (Hq : forall p, ignores_rows p -> p GetMetaData = false ->
                 (forall a b n t, p (GetTables a b n t) = false) ->
                 count p scan = 0).
  { intros p H1 H2 H3. apply count_filter_nil.
    now apply metadata_scan_quiet. }
  change (GetConnection MYSQL (mkParam url user password)
            :: scan ++ release_trace (Some c) None held)
    with ([GetConnection MYSQL (mkParam url user password)]
            ++ scan ++ release_trace (Some c) None held).
  rewrite !count_app.
  rewrite !Hq by (try split; intros; reflexivity).
  destruct (release_trace_counts (Some c) None held) as (Hrs & Hst & Hc).
  cbn [count filter is_CloseResultSet is_CloseStatement is_CloseConnection
       length Nat.add].
  split; [exact Hrs | ].
  split; [exact Hst | ].
  split; [exact Hc | ].
  split.
  { exists scan, (release_trace (Some c) None held).
    split; [reflexivity | ]. split.
    - apply metadata_scan_quiet; [split | | ]; intros; reflexivity.
    - apply release_trace_only. }
  unfold after_release. split.
  - intros Hnone. rewrite Hnone. split; [reflexivity | ].
    rewrite Hc. revert Hnone. unfold release_escape, resources.
    destruct held as [[cur cl] | ]; cbn; [ | reflexivity].
    destruct (escapes cl); [discriminate | reflexivity].
  - intros e' ->. reflexivity.
Qed.

(* ================================================================== *)
(** ** [getMySqlTables]: the requests it sends *)

(** Of the events a predicate can see once the row calls, the release calls
    and the diagnostics are hidden, the method leaves its one call to the
    provider and the requests of the [try] block. *)
Lemma getMySqlTables_requests p provider
    url database tablePattern user password :
  ignores_rows p -> ignores_release p ->
  filter p (trace (getMySqlTables provider url database tablePattern user
                     password)) =
  filter p
    (GetConnection MYSQL (mkParam url user password) ::
     match provider_getConnection provider MYSQL (mkParam url user password)
     with
     | Return conn => query_requests conn database user
     | Throw _ => []
     end).
Proof.
  intros Hrows Hrel. rewrite getMySqlTables_run. cbv zeta.
  destruct (provider_getConnection provider MYSQL (mkParam url user password))
    as [conn | e]; [ | reflexivity].
  cbn [trace filter]. rewrite !filter_app.
  rewrite metadata_scan_trace by assumption.
  rewrite release_trace_ignored by assumption.
  now rewrite app_nil_r.
Qed.

Lemma is_request_ignores : ignores_rows is_request /\ ignores_release is_request.
Proof. repeat split. Qed.

Lemma is_GetTables_ignores :
  ignores_rows is_GetTables /\ ignores_release is_GetTables.
Proof. repeat split. Qed.

(** A [getTables] call in the trace is the one call of the [try] block. *)
Lemma getMySqlTables_GetTables provider url database tablePattern user password
    catalog schemaPattern tableNamePattern types :
  In (GetTables catalog schemaPattern tableNamePattern types)
     (trace (getMySqlTables provider url database tablePattern user password))
  ->
  exists u, user = Some u /\
    GetTables catalog schemaPattern tableNamePattern types =
    GetTables database (Some (String_toUpperCase u)) None ["TABLE"].
Proof.
  intros Hin.
  assert (Hf : In (GetTables catalog schemaPattern tableNamePattern types)
                 (filter is_GetTables
                    (trace (getMySqlTables provider url database tablePattern
                              user password))))
    by (apply filter_In; split; [assumption | reflexivity]).
  destruct is_GetTables_ignores as [H1 H2].
  rewrite (getMySqlTables_requests _ _ _ _ _ _ _ H1 H2) in Hf.
  cbn [filter is_GetTables] in Hf.
  destruct (provider_getConnection provider MYSQL (mkParam url user password))
    as [[c | ] | e]; cbn in Hf; try contradiction.
  destruct (conn_getMetaData c); cbn in Hf; try contradiction.
  destruct user as [u | ]; cbn in Hf; try contradiction.
  destruct Hf as [Heq | []]. exists u. split; [reflexivity | now symmetry].
Qed.

(** The metadata queries of a run on which a connection and its metadata
    were obtained for a user that is not [null]: the one query of the
    [try] block. *)
Lemma getMySqlTables_query provider url database tablePattern user password
    c dmd u :
  provider_getConnection provider MYSQL (mkParam url user password)
    = Return (Some c) ->
  conn_getMetaData c = Return dmd ->
  user = Some u ->
  filter is_GetTables
    (trace (getMySqlTables provider url database tablePattern user password))
  = [GetTables database (Some (String_toUpperCase u)) None ["TABLE"]].
Proof.
  intros Hc Hmd ->. destruct is_GetTables_ignores as [H1 H2].
  rewrite (getMySqlTables_requests _ _ _ _ _ _ _ H1 H2).
  rewrite Hc. cbn. now rewrite Hmd.
Qed.

(** What a successful scan leaves the caller with. *)
Lemma getMySqlTables_names provider url database tablePattern user password
    c r names :
  provider_getConnection provider MYSQL (mkParam url user password)
    = Return (Some c) ->
  query_result c database user = Some r ->
  rs_cursor r = cursor_of names ->
  names = [] \/ compiles tablePattern ->
  outcome (getMySqlTables provider url database tablePattern user password)
  = after_release (Some c) None (Some r)
      (Return (map Some (filter (full_matches tablePattern) names))).
Proof.
  intros Hc Hq Hcur Hpat. rewrite getMySqlTables_run. cbv zeta.
  rewrite Hc. cbn [outcome]. rewrite metadata_scan_rs, Hq.
  destruct (metadata_scan_names c database tablePattern user r names
              Hq Hcur Hpat) as [Ho Ht].
  cbv zeta in Ho, Ht. now rewrite Ho, Ht.
Qed.

(** C5.  The metadata query of [getMySqlTables] is sent at most once;
    whenever it is sent, its catalog is the given database, its schema
    pattern (the owner) is what [String.toUpperCase()] makes of the given
    user, and its types are ["TABLE"] alone; and it is sent, exactly once
    and with these arguments, when a connection and its metadata were
    obtained for a user that is not [null]. *)
Theorem getMySqlTables_query_restricted provider
    url database tablePattern user password :
  let tr := trace (getMySqlTables provider url database tablePattern user
                     password) in
  (forall catalog schemaPattern tableNamePattern types,
     In (GetTables catalog schemaPattern tableNamePattern types) tr ->
     catalog = database /\
     (exists u, user = Some u /\
                schemaPattern = Some (String_toUpperCase u)) /\
     types = ["TABLE"]) /\
  count is_GetTables tr <= 1 /\
  (forall c dmd u,
     provider_getConnection provider MYSQL (mkParam url user password)
       = Return (Some c) ->
     conn_getMetaData c = Return dmd ->
     user = Some u ->
     filter is_GetTables tr =
       [GetTables database (Some (String_toUpperCase u)) None ["TABLE"]] /\
     count is_GetTables tr = 1 /\
     In (GetTables database (Some (String_toUpperCase u)) None ["TABLE"])
        tr).
Proof.
  cbv zeta. split; [ | split].
  - intros catalog schemaPattern tableNamePattern types Hin.
    apply getMySqlTables_GetTables in Hin as (u & -> & Heq).
    injection Heq as -> -> _ ->. eauto.
  - unfold count. destruct is_GetTables_ignores as [H1 H2].
    rewrite (getMySqlTables_requests _ _ _ _ _ _ _ H1 H2).
    cbn [filter is_GetTables].
    destruct (provider_getConnection provider MYSQL (mkParam url user password))
      as [[c | ] | e]; cbn; try lia.
    destruct (conn_getMetaData c); cbn; try lia.
    destruct user; cbn; lia.
  - intros c dmd u Hc Hmd Hu.
    pose proof (getMySqlTables_query provider url database tablePattern user
                  password c dmd u Hc Hmd Hu) as Hq.
    split; [exact Hq | ]. split.
    + unfold count. now rewrite Hq.
    + eapply (proj1 (filter_In is_GetTables _ _)). rewrite Hq. now left.
Qed.

(** C10.  Every call of [getMySqlTables] starts by asking the provider for
    a connection of kind [MYSQL], whatever the url, and asks it once.  When
    the connection and its metadata are obtained for a user that is not
    [null], it sends one metadata query, which carries no table-name
    pattern ([null]): the server is asked for all the table names of the
    database and owner.  The requests are the same for every table
    pattern.  The pattern is applied to the rows that come back: when the
    cursor of the query yields the names [names] and the pattern compiles,
    the caller gets those of [names] that the pattern matches as a whole,
    in the cursor's order (unless a close call lets an exception
    escape). *)
Theorem getMySqlTables_connects_as_mysql provider
    url database tablePattern user password :
  let run := getMySqlTables provider url database tablePattern user
               password in
  let tr := trace run in
  (exists rest,
     tr = GetConnection MYSQL (mkParam url user password) :: rest /\
     count is_GetConnection rest = 0) /\
  (forall catalog schemaPattern tableNamePattern types,
     In (GetTables catalog schemaPattern tableNamePattern types) tr ->
     tableNamePattern = None) /\
  (forall c dmd u,
     provider_getConnection provider MYSQL (mkParam url user password)
       = Return (Some c) ->
     conn_getMetaData c = Return dmd ->
     user = Some u ->
     filter is_GetTables tr =
       [GetTables database (Some (String_toUpperCase u)) None ["TABLE"]]) /\
  (forall tablePattern',
     filter is_request
       (trace (getMySqlTables provider url database tablePattern' user
                 password)) =
     filter is_request tr) /\
  (forall c r names,
     provider_getConnection provider MYSQL (mkParam url user password)
       = Return (Some c) ->
     query_result c database user = Some r ->
     rs_cursor r = cursor_of names ->
     names = [] \/ compiles tablePattern ->
     outcome run =
       after_release (Some c) None (Some r)
         (Return (map Some (filter (full_matches tablePattern) names)))).
Proof.
  cbv zeta. split; [ | split; [ | split; [ | split]]].
  - rewrite getMySqlTables_run. cbv zeta.
    destruct (provider_getConnection provider MYSQL (mkParam url user password))
      as [conn | e]; cbn [trace]; eexists; (split; [reflexivity | ]);
      [ | reflexivity].
    rewrite count_app. rewrite !count_filter_nil; [reflexivity | | ].
    + apply release_trace_ignored. repeat split.
    + apply metadata_scan_quiet; [split | | ]; intros; reflexivity.
  - intros catalog schemaPattern tableNamePattern types Hin.
    apply getMySqlTables_GetTables in Hin as (u & -> & Heq).
    now injection Heq.
  - apply getMySqlTables_query.
  - intros tablePattern'. destruct is_request_ignores as [H1 H2].
    now rewrite !(getMySqlTables_requests _ _ _ _ _ _ _ H1 H2).
  - apply getMySqlTables_names.
Qed.

(** C9.  With a [null] user, a connection that is obtained and metadata
    that are obtained, [getMySqlTables] checks nothing before it asks for
    the connection: it asks for it with the [null] user, asks the
    connection for its metadata, fails with a [NullPointerException] where
    the user is put in upper case, and closes the connection before an
    exception leaves.  The exception that leaves is that
    [NullPointerException], unless the connection's close call throws an
    exception that is not an [SQLException], which then leaves in its
    place. *)
Theorem getMySqlTables_null_user provider
    url database tablePattern password c dmd :
  provider_getConnection provider MYSQL (mkParam url None password)
    = Return (Some c) ->
  conn_getMetaData c = Return dmd ->
  let r := getMySqlTables provider url database tablePattern None password in
  outcome (metadata_scan (Some c) database tablePattern None
             (mkFrame [] None)) = Throw NullPointerException /\
  (escapes (conn_close c) = None -> outcome r = Throw NullPointerException) /\
  (forall e, escapes (conn_close c) = Some e -> outcome r = Throw e) /\
  filter (fun ev => negb (is_PrintStackTrace ev)) (trace r) =
    [GetConnection MYSQL (mkParam url None password);
     GetMetaData; CloseConnection].
Proof.
  intros Hc Hmd. cbv zeta. rewrite getMySqlTables_run. cbv zeta.
  rewrite Hc. unfold metadata_scan. run_monad. rewrite Hmd. cbn.
  unfold after_release, release_escape, release_trace, resources. cbn.
  destruct (conn_close c) as [ [] | [ m | | m | m | m ] ]; cbn;
    (split; [reflexivity | ]);
    (split; [intros H; try discriminate H; reflexivity | ]);
    (split; [intros e H; try discriminate H; now injection H as <- | ]);
    reflexivity.
Qed.

(* ================================================================== *)
(** ** [getMySqlTables]: the names it returns *)

Lemma filter_none {A} (f : A -> bool) (l : list A) :
  (forall x, In x l -> f x = false) -> filter f l = [].
Proof.
  induction l as [ | x l IH]; intros H; [reflexivity | ].
  cbn. rewrite (H x) by (now left). apply IH. intros y Hy. apply H. now right.
Qed.

(** C2.  [getMySqlTables] returns a sequence exactly when a connection, its
    metadata and a result set of the metadata query were obtained, the
    cursor yielded names (none of them [null]) and came to its end, the
    pattern is a regex that compiles (it is not consulted when the cursor
    yields nothing), and no close call lets an exception escape (the close
    calls may return or throw an [SQLException]); the sequence is then made
    of those names that the pattern matches as a whole, in the order the
    cursor gave them.  It is empty when the pattern matches none. *)
Theorem getMySqlTables_returns_full_matches provider
    url database tablePattern user password l :
  outcome (getMySqlTables provider url database tablePattern user password)
    = Return l <->
  exists c r names,
    provider_getConnection provider MYSQL (mkParam url user password)
      = Return (Some c) /\
    query_result c database user = Some r /\
    rs_cursor r = cursor_of names /\
    (names = [] \/ compiles tablePattern) /\
    release_escape (Some c) None (Some r) = None /\
    l = map Some (filter (full_matches tablePattern) names) /\
    ((forall n, In n names -> full_matches tablePattern n = false) ->
     l = []).
Proof.
  split.
  - intros H. rewrite getMySqlTables_run in H. cbv zeta in H.
    destruct (provider_getConnection provider MYSQL (mkParam url user password))
      as [conn | e] eqn:Hp; [ | discriminate H].
    cbn [outcome] in H. unfold after_release in H.
    destruct (release_escape conn None _) as [e' | ] eqn:Hesc;
      [discriminate H | ].
    destruct (outcome (metadata_scan conn database tablePattern user
                         (mkFrame [] None))) as [[] | e] eqn:Ho;
      [ | discriminate H].
    destruct (metadata_scan_returns _ _ _ _ _ Ho)
      as (c & r & names & -> & Hq & Hcur & Hpat).
    destruct (metadata_scan_names c database tablePattern user r names
                Hq Hcur Hpat) as [_ Ht].
    cbv zeta in Ht. rewrite Ht in H. injection H as <-.
    rewrite metadata_scan_rs, Hq in Hesc.
    exists c, r, names. repeat split; auto.
    intros Hnone. now rewrite filter_none.
  - intros (c & r & names & Hc & Hq & Hcur & Hpat & Hesc & -> & _).
    rewrite (getMySqlTables_names _ _ _ _ _ _ c r names Hc Hq Hcur Hpat).
    unfold after_release. now rewrite Hesc.
Qed.

(* ================================================================== *)
(** ** [getMySqlTables]: when no connection is obtained *)

(** X2.  When the provider throws, [getMySqlTables] throws the same exception
    and has called nothing else: no JDBC method and no release. *)
Theorem getMySqlTables_provider_throws provider
    url database tablePattern user password e :
  provider_getConnection provider MYSQL (mkParam url user password)
    = Throw e ->
  let r := getMySqlTables provider url database tablePattern user password in
  outcome r = Throw e /\
  trace r = [GetConnection MYSQL (mkParam url user password)].
Proof.
  intros H. cbv zeta. rewrite getMySqlTables_run. cbv zeta. rewrite H.
  split; reflexivity.
Qed.

(** X3.  When the provider answers [null], [getMySqlTables] fails with a
    [NullPointerException] at [conn.getMetaData()] and releases nothing. *)
Theorem getMySqlTables_null_connection provider
    url database tablePattern user password :
  provider_getConnection provider MYSQL (mkParam url user password)
    = Return None ->
  let r := getMySqlTables provider url database tablePattern user password in
  outcome r = Throw NullPointerException /\
  trace r = [GetConnection MYSQL (mkParam url user password)].
Proof.
  intros H. cbv zeta. rewrite getMySqlTables_run. cbv zeta. rewrite H.
  split; reflexivity.
Qed.

End Introspector.

(* ================================================================== *)
(** ** The dispatcher *)

(** C3.  Once the class is initialised, [getDatasourceProcessor] returns for
    each of the nine supported engine kinds a processor that is not [null],
    of the class registered for the kind, and returned for no other kind;
    the fields being final, every call with the kind returns that same
    object.  For a kind outside the nine it throws
    [IllegalArgumentException]. *)
Theorem getDatasourceProcessor_dispatch (next : nat) (k : DbType) :
  let st := fst (clinit next) in
  (supported k = true ->
   exists p,
     getDatasourceProcessor st (Some k) = Return (Some p) /\
     class_of k = Some (processor_class p) /\
     forall k', getDatasourceProcessor st (Some k') = Return (Some p) ->
                k' = k) /\
  (supported k = false ->
   getDatasourceProcessor st (Some k) =
     Throw (IllegalArgumentException
              ("datasource type illegal:" ++ DbType_toString k))).
Proof.
  cbv zeta. split.
  - intros Hk. destruct k; try discriminate Hk; cbn;
      (eexists; split; [reflexivity | split; [reflexivity | ]]);
      intros k' H; destruct k'; cbn in H; try reflexivity;
      try discriminate H; injection H; intros; lia.
  - intros Hk. destruct k; try discriminate Hk. reflexivity.
Qed.

(** The two calls the claim compares, run at class initialisation with
    identities from 0. *)
Lemma getDatasourceProcessor_dispatch_witness :
  (exists p,
     getDatasourceProcessor (fst (clinit 0)) (Some HIVE) = Return (Some p) /\
     class_of HIVE = Some (processor_class p) /\
     forall k', getDatasourceProcessor (fst (clinit 0)) (Some k')
                  = Return (Some p) -> k' = HIVE) /\
  getDatasourceProcessor (fst (clinit 0)) (Some (OTHER "ICEBERG")) =
    Throw (IllegalArgumentException "datasource type illegal:ICEBERG").
Proof.
  split.
  - exact (proj1 (getDatasourceProcessor_dispatch 0 HIVE) eq_refl).
  - exact (proj2 (getDatasourceProcessor_dispatch 0 (OTHER "ICEBERG"))
             eq_refl).
Defined.

(** A [null] engine kind does not reach the [default] branch: the [switch]
    throws [NullPointerException]. *)
Theorem getDatasourceProcessor_null (st : Statics) :
  getDatasourceProcessor st None = Throw NullPointerException.
Proof. reflexivity. Qed.

(* ================================================================== *)
(** ** Concrete runs *)

(** The fragment matches whole names: [orders.*] accepts the two names that
    start with [orders] and rejects [customer_orders], in which a search
    for a matching substring succeeds. *)
Example full_match_is_not_find :
  map (full_matches (RX := RegexFragment.regex) (Some "^orders.*$"))
      Example.three_tables = [true; false; true] /\
  option_map (fun r => RegexFragment.find_match r "customer_orders")
             (RegexFragment.compile "orders.*") = Some true.
Proof. split; reflexivity. Qed.

(** Three resources whose close calls all throw an [SQLException]: every
    close call is made once and [close] returns. *)
Lemma close_total_null_tolerant_witness :
  let r := close (S := unit) (Some Example.healthy)
             (Some (mkStatement Example.cursor_gone))
             (Some (mkResultSet Exhausted Example.cursor_gone)) tt in
  outcome r = Return tt /\
  count is_CloseResultSet (trace r) = 1 /\
  count is_CloseStatement (trace r) = 1 /\
  count is_CloseConnection (trace r) = 1.
Proof.
  exact (proj1 (proj2 (proj2 (proj2 (proj2 (proj2
           (close_total_null_tolerant unit (Some Example.healthy)
              (Some (mkStatement Example.cursor_gone))
              (Some (mkResultSet Exhausted Example.cursor_gone)) tt))))))
           eq_refl).
Defined.

(** C8 as stated fails.  A cursor whose close call throws an unchecked
    exception: [close] throws it, and neither the statement nor the
    connection is closed. *)
Lemma close_lets_unchecked_escape :
  let r := close (S := unit) (Some Example.healthy_quiet)
             (Some (mkStatement (Return tt)))
             (Some (mkResultSet Exhausted (Throw NullPointerException))) tt in
  outcome r = Throw NullPointerException /\
  trace r = [CloseResultSet].
Proof. split; reflexivity. Qed.

(** A release sequence in which every close call throws an [SQLException],
    after a [try] block that threw. *)
Lemma close_releases_in_order_witness :
  let conn := Some Example.healthy in
  let stmt := Some (mkStatement Example.cursor_gone) in
  let rs := Some (mkResultSet Exhausted Example.cursor_gone) in
  let r := close (S := unit) conn stmt rs tt in
  filter is_release (trace r) =
    [CloseResultSet; CloseStatement; CloseConnection] /\
  count is_PrintStackTrace (trace r) = 3 /\
  outcome r = Return tt /\
  outcome (try_finally (A := unit) (throw (Exception "lost"))
             (f <- get ;; close conn stmt rs) tt)
    = Throw (Exception "lost").
Proof.
  pose proof (close_releases_in_order unit unit (Some Example.healthy)
                (Some (mkStatement Example.cursor_gone))
                (fun _ => Some (mkResultSet Exhausted Example.cursor_gone))
                (throw (Exception "lost")) tt) as H.
  cbv zeta in H. destruct H as (_ & _ & Hquiet & _ & _ & Hfin & _).
  destruct (Hquiet eq_refl) as (Hcalls & Hdiag & Hout).
  cbv zeta. split; [exact Hcalls | ]. split; [exact Hdiag | ].
  split; [exact Hout | exact (Hfin eq_refl)].
Defined.

(** C4 as stated fails.  In the release sequence of a call that succeeds
    the close call of the statement is not made: the method passes [null]
    for it.  And when the cursor's close call throws an unchecked
    exception, the close call of the connection is not made and the
    exception reaches the caller in place of the names. *)
Lemma getMySqlTables_release_skips_statement :
  let r := Example.run (Example.provider Example.healthy)
             (Some "^orders.*$") Example.alice in
  let r' := Example.run (Example.provider Example.leaking)
              (Some "^orders.*$") Example.alice in
  (filter is_release (trace r) = [CloseResultSet; CloseConnection] /\
   ~ In CloseStatement (trace r)) /\
  (filter is_release (trace r') = [CloseResultSet] /\
   outcome r' = Throw NullPointerException).
Proof.
  cbv zeta. split; split; try reflexivity.
  cbv. intros H.
  repeat (destruct H as [H | H]; [discriminate H | ]). exact H.
Qed.

(** A scan that breaks after one row, every release call failing with an
    [SQLException]; and the same scan on a driver whose cursor throws an
    unchecked exception when closed. *)
Lemma getMySqlTables_releases_on_scan_error_witness :
  let r := Example.run (Example.provider Example.breaking)
             (Some "^orders.*$") Example.alice in
  let r' := Example.run (Example.provider Example.leaking_breaking)
              (Some "^orders.*$") Example.alice in
  (outcome r = Throw (SQLException "link failure") /\
   count is_CloseResultSet (trace r) = 1 /\
   count is_CloseStatement (trace r) = 0 /\
   count is_CloseConnection (trace r) = 1) /\
  (outcome r' = Throw NullPointerException /\
   count is_CloseResultSet (trace r') = 1 /\
   count is_CloseConnection (trace r') = 0).
Proof.
  cbv zeta. split.
  - pose proof (getMySqlTables_releases_on_scan_error
                  (RX := RegexFragment.regex) (JS := Example.ascii_strings)
                  (Example.provider Example.breaking) Example.url
                  Example.database (Some "^orders.*$") Example.alice
                  Example.secret Example.breaking
                  (SQLException "link failure") eq_refl eq_refl) as H.
    cbv zeta in H. destruct H as (Hrs & Hst & _ & _ & Hquiet & _).
    destruct (Hquiet eq_refl) as [Hout Hconn].
    split; [exact Hout | ]. split; [exact Hrs | ].
    split; [exact Hst | exact Hconn].
  - pose proof (getMySqlTables_releases_on_scan_error
                  (RX := RegexFragment.regex) (JS := Example.ascii_strings)
                  (Example.provider Example.leaking_breaking) Example.url
                  Example.database (Some "^orders.*$") Example.alice
                  Example.secret Example.leaking_breaking
                  (SQLException "link failure") eq_refl eq_refl) as H.
    cbv zeta in H. destruct H as (Hrs & _ & Hconn & _ & _ & Hesc).
    split; [exact (Hesc NullPointerException eq_refl) | ].
    split; [exact Hrs | exact Hconn].
Defined.

(** C1 as stated fails.  When the cursor breaks after a row, the cursor and
    the connection are closed and no statement is; when the metadata query
    itself fails, there is no cursor to close either; and when the cursor's
    close call throws an unchecked exception, the connection is not closed
    and the caller gets that exception, not the error of the scan. *)
Lemma getMySqlTables_scan_error_closes_no_statement :
  let broken := Example.run (Example.provider Example.breaking)
                  (Some "^orders.*$") Example.alice in
  let refused := Example.run (Example.provider Example.unqueryable)
                   (Some "^orders.*$") Example.alice in
  let leaked := Example.run (Example.provider Example.leaking_breaking)
                  (Some "^orders.*$") Example.alice in
  (outcome broken = Throw (SQLException "link failure") /\
   count is_CloseStatement (trace broken) = 0) /\
  (outcome refused = Throw (SQLException "Unknown database") /\
   count is_CloseResultSet (trace refused) = 0) /\
  (outcome (metadata_scan (RX := RegexFragment.regex)
              (JS := Example.ascii_strings) (Some Example.leaking_breaking)
              Example.database (Some "^orders.*$") Example.alice
              (mkFrame [] None))
     = Throw (SQLException "link failure") /\
   outcome leaked = Throw NullPointerException /\
   count is_CloseConnection (trace leaked) = 0).
Proof. repeat split. Qed.

(** On the server of [alice]: the one metadata query names the database,
    the owner [ALICE] and the type [TABLE]. *)
Lemma getMySqlTables_query_restricted_witness :
  let tr := trace (Example.run (Example.provider Example.healthy)
                     (Some "^orders.*$") Example.alice) in
  filter is_GetTables tr =
    [GetTables (Some "reporting") (Some "ALICE") None ["TABLE"]] /\
  count is_GetTables tr = 1 /\
  In (GetTables (Some "reporting") (Some "ALICE") None ["TABLE"]) tr.
Proof.
  exact (proj2 (proj2 (getMySqlTables_query_restricted
           (RX := RegexFragment.regex) (JS := Example.ascii_strings)
           (Example.provider Example.healthy) Example.url Example.database
           (Some "^orders.*$") Example.alice Example.secret))
           Example.healthy
           (Example.metadata (cursor_of Example.three_tables)
                             Example.cursor_gone)
           "alice" eq_refl eq_refl eq_refl).
Defined.

(** On the server of [alice]: the connection is asked for as [MYSQL], the
    one metadata query carries no name pattern, and of the three names that
    come back the pattern [.*orders] keeps two. *)
Lemma getMySqlTables_connects_as_mysql_witness :
  let run := Example.run (Example.provider Example.healthy)
               (Some ".*orders") Example.alice in
  (exists rest,
     trace run =
       GetConnection MYSQL (mkParam Example.url Example.alice Example.secret)
       :: rest /\
     count is_GetConnection rest = 0) /\
  filter is_GetTables (trace run) =
    [GetTables (Some "reporting") (Some "ALICE") None ["TABLE"]] /\
  outcome run = Return [Some "orders"; Some "customer_orders"].
Proof.
  pose proof (getMySqlTables_connects_as_mysql
                (RX := RegexFragment.regex) (JS := Example.ascii_strings)
                (Example.provider Example.healthy) Example.url
                Example.database (Some ".*orders") Example.alice
                Example.secret) as H.
  cbv zeta in H. destruct H as (Hfirst & _ & Hquery & _ & Hrows).
  cbv zeta. split; [exact Hfirst | ]. split.
  - exact (Hquery Example.healthy
             (Example.metadata (cursor_of Example.three_tables)
                               Example.cursor_gone)
             "alice" eq_refl eq_refl eq_refl).
  - refine (Hrows Example.healthy
              (mkResultSet (cursor_of Example.three_tables)
                           Example.cursor_gone)
              Example.three_tables eq_refl eq_refl eq_refl _).
    right. exists ".*orders". eexists. split; reflexivity.
Defined.

(** The spec's example: of [orders], [customer_orders] and [orders_archive]
    the pattern [^orders.*$] keeps the first and the last, and a pattern
    that matches none gives the empty sequence, though both release calls
    fail with an [SQLException]. *)
Lemma getMySqlTables_returns_full_matches_witness :
  outcome (Example.run (Example.provider Example.healthy)
             (Some "^orders.*$") Example.alice)
    = Return [Some "orders"; Some "orders_archive"] /\
  outcome (Example.run (Example.provider Example.healthy)
             (Some "invoices") Example.alice)
    = Return [].
Proof.
  split.
  - apply (proj2 (getMySqlTables_returns_full_matches
             (RX := RegexFragment.regex) (JS := Example.ascii_strings)
             (Example.provider Example.healthy) Example.url Example.database
             (Some "^orders.*$") Example.alice Example.secret
             [Some "orders"; Some "orders_archive"])).
    exists Example.healthy,
      (mkResultSet (cursor_of Example.three_tables) Example.cursor_gone),
      Example.three_tables.
    repeat split; try reflexivity.
    + right. eexists. eexists. split; reflexivity.
    + intros H. discriminate (H "orders" (or_introl eq_refl)).
  - apply (proj2 (getMySqlTables_returns_full_matches
             (RX := RegexFragment.regex) (JS := Example.ascii_strings)
             (Example.provider Example.healthy) Example.url Example.database
             (Some "invoices") Example.alice Example.secret [])).
    exists Example.healthy,
      (mkResultSet (cursor_of Example.three_tables) Example.cursor_gone),
      Example.three_tables.
    repeat split; try reflexivity.
    right. eexists. eexists. split; reflexivity.
Defined.

(** A [null] user on a server that answers. *)
Lemma getMySqlTables_null_user_witness :
  let r := Example.run (Example.provider Example.healthy)
             (Some "^orders.*$") None in
  outcome r = Throw NullPointerException /\
  filter (fun ev => negb (is_PrintStackTrace ev)) (trace r) =
    [GetConnection MYSQL (mkParam Example.url None Example.secret);
     GetMetaData; CloseConnection].
Proof.
  pose proof (getMySqlTables_null_user
                (RX := RegexFragment.regex) (JS := Example.ascii_strings)
                (Example.provider Example.healthy) Example.url
                Example.database (Some "^orders.*$") Example.secret
                Example.healthy
                (Example.metadata (cursor_of Example.three_tables)
                                  Example.cursor_gone)
                eq_refl eq_refl) as H.
  cbv zeta in H. destruct H as (_ & Hout & _ & Hcalls).
  cbv zeta. split; [exact (Hout eq_refl) | exact Hcalls].
Defined.

(** A provider that refuses, and one that answers [null]. *)
Lemma getMySqlTables_provider_throws_witness :
  let r := Example.run Example.refusing (Some "^orders.*$") Example.alice in
  outcome r = Throw (Exception "Access denied") /\
  trace r =
    [GetConnection MYSQL (mkParam Example.url Example.alice Example.secret)].
Proof.
  exact (getMySqlTables_provider_throws
           (RX := RegexFragment.regex) (JS := Example.ascii_strings)
           Example.refusing Example.url Example.database (Some "^orders.*$")
           Example.alice Example.secret (Exception "Access denied") eq_refl).
Defined.

Lemma getMySqlTables_null_connection_witness :
  let r := Example.run Example.absent (Some "^orders.*$") Example.alice in
  outcome r = Throw NullPointerException /\
  trace r =
    [GetConnection MYSQL (mkParam Example.url Example.alice Example.secret)].
Proof.
  exact (getMySqlTables_null_connection
           (RX := RegexFragment.regex) (JS := Example.ascii_strings)
           Example.absent Example.url Example.database (Some "^orders.*$")
           Example.alice Example.secret eq_refl).
Defined.

(* ================================================================== *)
(** ** [getMySqlTables]: every path *)

Section Paths.
Context {RX : JavaRegex} {JS : JavaString}.

(** The loop reads the frame's [tables] only. *)
Lemma while_next_frame tablePattern c :
  forall f1 f2,
    tables f1 = tables f2 ->
    trace (while_next tablePattern c f1) = trace (while_next tablePattern c f2)
    /\ outcome (while_next tablePattern c f1)
       = outcome (while_next tablePattern c f2)
    /\ tables (final (while_next tablePattern c f1))
       = tables (final (while_next tablePattern c f2)).
Proof.
  induction c as [ | msg | name rest IH]; intros f1 f2 Ht.
  - cbn. auto.
  - cbn. auto.
  - cbn [while_next]. unfold Pattern_matches.
    destruct name as [[n | ] | msg];
      destruct tablePattern as [r | ]; run_monad; auto;
      destruct (Pattern_compile r) as [pt | ]; cbn; auto.
    destruct (Matcher_matches pt n); cbn;
      match goal with
      | |- context [while_next ?tp rest ?g1] =>
          match goal with
          | |- context [while_next tp rest ?g2] =>
              lazymatch g1 with
              | g2 => fail
              | _ =>
                  assert (Hg : tables g1 = tables g2)
                    by (cbn; now rewrite ?Ht);
                  destruct (IH g1 g2 Hg) as (H1 & H2 & H3);
                  destruct (while_next tp rest g1) as [t1 s1 o1];
                  destruct (while_next tp rest g2) as [t2 s2 o2];
                  cbn in H1, H2, H3 |- *; subst; auto
              end
          end
      end.
Qed.

(** Once the metadata query has answered, the [try] block is its two
    requests followed by the loop. *)
Lemma metadata_scan_rows c database tablePattern user r l :
  query_result c database user = Some r ->
  let w := while_next tablePattern (rs_cursor r) (mkFrame l (Some r)) in
  metadata_scan (Some c) database tablePattern user (mkFrame l None) =
  mkResult (query_requests (Some c) database user ++ trace w)
           (final w) (outcome w).
Proof.
  unfold query_result, metadata_scan, query_requests. intros Hq. run_monad.
  destruct (conn_getMetaData c) as [dmd | e]; [ | discriminate].
  destruct user as [u | ]; [ | discriminate]. cbn.
  destruct (dmd_getTables dmd database (Some (String_toUpperCase u)) None
              ["TABLE"])
    as [r0 | e]; [ | discriminate].
  injection Hq as ->. cbn.
  destruct (while_next tablePattern (rs_cursor r) (mkFrame l (Some r)))
    as [t s o]. reflexivity.
Qed.

(** What the release calls leave when none lets an exception escape: the
    calls, by the resources that are present, and the outcome they
    found. *)
Lemma release_quiet {A} conn stmt rs (o : Outcome A) :
  release_escape conn stmt rs = None ->
  calls (release_trace conn stmt rs) =
    match rs with Some _ => [CloseResultSet] | None => [] end ++
    match stmt with Some _ => [CloseStatement] | None => [] end ++
    match conn with Some _ => [CloseConnection] | None => [] end /\
  after_release conn stmt rs o = o.
Proof.
  unfold after_release, release_escape, release_trace, resources, calls.
  each_resource rs stmt conn; cbn; intros H;
    try discriminate H; split; reflexivity.
Qed.

Lemma closes_quietly_release c database user :
  closes_quietly c ->
  release_escape (Some c) None (query_result c database user) = None.
Proof.
  intros [Hc Hrs]. unfold query_result.
  destruct (conn_getMetaData c) as [dmd | e] eqn:Hmd;
    [ | unfold release_escape; cbn; now rewrite Hc].
  destruct user as [u | ];
    [ | unfold release_escape; cbn; now rewrite Hc].
  destruct (dmd_getTables dmd database (Some (String_toUpperCase u)) None
              ["TABLE"]) as [r | e] eqn:Hr;
    [ | unfold release_escape; cbn; now rewrite Hc].
  unfold release_escape. cbn.
  rewrite (Hrs dmd eq_refl _ _ _ _ r Hr). now rewrite Hc.
Qed.

(** The [try] block on two connections that differ at most in their close
    calls. *)
Lemma metadata_scan_same c1 c2 database tablePattern user :
  same_but_close c1 c2 ->
  let s1 := metadata_scan (Some c1) database tablePattern user
              (mkFrame [] None) in
  let s2 := metadata_scan (Some c2) database tablePattern user
              (mkFrame [] None) in
  trace s1 = trace s2 /\
  outcome s1 = outcome s2 /\
  tables (final s1) = tables (final s2) /\
  match query_result c1 database user, query_result c2 database user with
  | Some _, Some _ | None, None => True
  | _, _ => False
  end.
Proof.
  intros Hsame. cbv zeta.
  unfold same_but_close in Hsame.
  unfold metadata_scan, query_result. run_monad.
  destruct (conn_getMetaData c1) as [d1 | m1],
           (conn_getMetaData c2) as [d2 | m2]; try contradiction.
  - destruct user as [u | ]; cbn; [ | auto].
    specialize (Hsame database (Some (String_toUpperCase u)) None ["TABLE"]).
    unfold same_rows in Hsame.
    destruct (dmd_getTables d1 database (Some (String_toUpperCase u)) None
                ["TABLE"]) as [x | mx],
             (dmd_getTables d2 database (Some (String_toUpperCase u)) None
                ["TABLE"]) as [y | my]; try contradiction; cbn.
    + rewrite Hsame.
      destruct (while_next_frame tablePattern (rs_cursor y)
                  (mkFrame [] (Some x)) (mkFrame [] (Some y)) eq_refl)
        as (Ht & Ho & Htab).
      destruct (while_next tablePattern (rs_cursor y) (mkFrame [] (Some x)))
        as [t1 s1 o1].
      destruct (while_next tablePattern (rs_cursor y) (mkFrame [] (Some y)))
        as [t2 s2 o2].
      cbn in Ht, Ho, Htab |- *. subst t2 o2. auto.
    + subst my. auto.
  - subst m2. cbn. auto.
Qed.

(** X4.  On every path [getMySqlTables] closes only what it opened, each at
    most once, and its release calls come last: it closes the cursor once
    when the metadata query returned one; it never closes a statement; it
    closes the connection once when the provider returned one, unless the
    cursor's close call throws an exception that is not an [SQLException]:
    then the connection is not closed. *)
Theorem getMySqlTables_release_counts provider
    url database tablePattern user password :
  let r := getMySqlTables provider url database tablePattern user password in
  count is_CloseConnection (trace r) =
    match provider_getConnection provider MYSQL (mkParam url user password)
    with
    | Return (Some c) =>
        match query_result c database user with
        | Some x =>
            match escapes (rs_close x) with Some _ => 0 | None => 1 end
        | None => 1
        end
    | _ => 0
    end /\
  count is_CloseResultSet (trace r) =
    match provider_getConnection provider MYSQL (mkParam url user password)
    with
    | Return (Some c) =>
        match query_result c database user with Some _ => 1 | None => 0 end
    | _ => 0
    end /\
  count is_CloseStatement (trace r) = 0 /\
  exists before release,
    trace r = before ++ release /\
    filter is_release before = [] /\
    Forall release_or_diagnostic release.
Proof.
  cbv zeta. rewrite getMySqlTables_run. cbv zeta.
  destruct (provider_getConnection provider MYSQL (mkParam url user password))
    as [conn | e].
  - cbn [trace]. rewrite metadata_scan_rs.
    set (scan := trace (metadata_scan conn database tablePattern user
                          (mkFrame [] None))).
    assert (Hq : forall p, ignores_rows p -> p GetMetaData = false ->
                   (forall a b n t, p (GetTables a b n t) = false) ->
                   count p scan = 0).
    { intros p H1 H2 H3. apply count_filter_nil.
      now apply metadata_scan_quiet. }
    set (cur := match conn with
                | Some c => query_result c database user
                | None => None
                end).
    change (GetConnection MYSQL (mkParam url user password)
              :: scan ++ release_trace conn None cur)
      with ([GetConnection MYSQL (mkParam url user password)]
              ++ scan ++ release_trace conn None cur).
    rewrite !count_app.
    rewrite !Hq by (try split; intros; reflexivity).
    destruct (release_trace_counts conn None cur) as (Hrs & Hst & Hc).
    cbn [count filter is_CloseResultSet is_CloseStatement is_CloseConnection
         length Nat.add].
    split; [ | split; [ | split; [exact Hst | ]]].
    + rewrite Hc. unfold cur. destruct conn as [c | ]; [ | reflexivity].
      unfold release_escape, resources.
      destruct (query_result c database user) as [[cu cl] | ];
        [ | reflexivity].
      cbn. destruct (escapes cl); reflexivity.
    + rewrite Hrs. unfold cur. destruct conn as [c | ]; reflexivity.
    + exists ([GetConnection MYSQL (mkParam url user password)] ++ scan),
        (release_trace conn None cur).
      split; [now rewrite <- app_assoc | ]. split.
      * cbn. apply metadata_scan_quiet; [split | | ]; intros; reflexivity.
      * apply release_trace_only.
  - cbn. repeat split.
    exists [GetConnection MYSQL (mkParam url user password)], [].
    repeat split. constructor.
Qed.

(** X5.  As long as no close call throws anything but an [SQLException],
    how the connection and the result set close has no part in what
    [getMySqlTables] returns or throws, nor in the calls it makes: on two
    connections that differ at most in their close calls, none of which
    lets an exception escape, the outcome is the same, and so are the
    calls, diagnostics apart. *)
Theorem getMySqlTables_close_behaviour_irrelevant provider1 provider2
    url database tablePattern user password c1 c2 :
  provider_getConnection provider1 MYSQL (mkParam url user password)
    = Return (Some c1) ->
  provider_getConnection provider2 MYSQL (mkParam url user password)
    = Return (Some c2) ->
  same_but_close c1 c2 ->
  closes_quietly c1 ->
  closes_quietly c2 ->
  let r1 := getMySqlTables provider1 url database tablePattern user password in
  let r2 := getMySqlTables provider2 url database tablePattern user password in
  outcome r1 = outcome r2 /\ calls (trace r1) = calls (trace r2).
Proof.
  intros H1 H2 Hsame Hq1 Hq2. cbv zeta. rewrite !getMySqlTables_run.
  cbv zeta. rewrite H1, H2. cbn [outcome trace].
  rewrite !metadata_scan_rs.
  apply (closes_quietly_release c1 database user) in Hq1.
  apply (closes_quietly_release c2 database user) in Hq2.
  destruct (metadata_scan_same c1 c2 database tablePattern user Hsame)
    as (Ht & Ho & Htab & Hres).
  cbv zeta in Ht, Ho, Htab.
  rewrite Ht, Ho, Htab.
  destruct (release_quiet (Some c1) None (query_result c1 database user)
              (match outcome (metadata_scan (Some c2) database tablePattern
                                user (mkFrame [] None)) with
               | Return _ =>
                   Return (tables (final (metadata_scan (Some c2) database
                                            tablePattern user
                                            (mkFrame [] None))))
               | Throw e => Throw e
               end) Hq1) as [Hcalls1 Hout1].
  destruct (release_quiet (Some c2) None (query_result c2 database user)
              (match outcome (metadata_scan (Some c2) database tablePattern
                                user (mkFrame [] None)) with
               | Return _ =>
                   Return (tables (final (metadata_scan (Some c2) database
                                            tablePattern user
                                            (mkFrame [] None))))
               | Throw e => Throw e
               end) Hq2) as [Hcalls2 Hout2].
  rewrite Hout1, Hout2. split; [reflexivity | ].
  unfold calls in *. cbn [filter is_PrintStackTrace negb].
  rewrite !filter_app, Hcalls1, Hcalls2.
  destruct (query_result c1 database user), (query_result c2 database user);
    try contradiction; reflexivity.
Qed.

(** How often the loop calls the cursor on names that are all read. *)
Lemma while_next_counts tablePattern names :
  names = [] \/ compiles tablePattern ->
  forall f,
    count is_Next (trace (while_next tablePattern (cursor_of names) f))
      = S (List.length names) /\
    count is_GetString (trace (while_next tablePattern (cursor_of names) f))
      = List.length names
        + List.length (filter (full_matches tablePattern) names).
Proof.
  intros Hpat.
  induction names as [ | n rest IH]; intros f.
  - split; reflexivity.
  - destruct Hpat as [Hnil | (r & p & -> & Hc)]; [discriminate | ].
    assert (Hrest : rest = [] \/ compiles (Some r))
      by (right; exists r, p; auto).
    specialize (IH Hrest).
    cbn [cursor_of while_next filter full_matches List.length].
    unfold Pattern_matches. run_monad. rewrite !Hc. cbn.
    destruct (Matcher_matches p n); cbn;
      match goal with
      | |- context [while_next ?tp ?c ?f'] =>
          destruct (IH f') as [Hn Hg];
          destruct (while_next tp c f') as [t2 s2 o2];
          cbn in Hn, Hg |- *; unfold count in *; cbn;
          rewrite Hn, Hg; split; lia
      end.
Qed.

(** X6.  On a scan that succeeds over [n] names of which [m] match, the
    cursor is advanced [n + 1] times and the name column is read [n + m]
    times: once for every row and once more for every row that matches. *)
Theorem getMySqlTables_reads provider
    url database tablePattern user password c r names :
  provider_getConnection provider MYSQL (mkParam url user password)
    = Return (Some c) ->
  query_result c database user = Some r ->
  rs_cursor r = cursor_of names ->
  names = [] \/ compiles tablePattern ->
  let tr := trace (getMySqlTables provider url database tablePattern user
                     password) in
  count is_Next tr = S (List.length names) /\
  count is_GetString tr =
    List.length names
    + List.length (filter (full_matches tablePattern) names).
Proof.
  intros Hc Hq Hcur Hpat. cbv zeta.
  rewrite getMySqlTables_run. cbv zeta. rewrite Hc. cbn [trace].
  rewrite (metadata_scan_rows c database tablePattern user r [] Hq).
  cbv zeta. cbn [trace final]. rewrite Hcur.
  destruct (while_next_counts tablePattern names Hpat (mkFrame [] (Some r)))
    as [Hn Hg].
  set (w := while_next tablePattern (cursor_of names) (mkFrame [] (Some r)))
    in *.
  assert (Hreq : forall p, p GetMetaData = false ->
                   (forall a b n t, p (GetTables a b n t) = false) ->
                   count p (query_requests (Some c) database user) = 0).
  { intros p H1 H2. unfold query_requests, count. cbn. rewrite H1.
    destruct (conn_getMetaData c); [ | reflexivity].
    destruct user; [ | reflexivity]. cbn. now rewrite H2. }
  assert (Hrel : forall p, ignores_release p ->
                   count p (release_trace (Some c) None (rs (final w))) = 0).
  { intros p Hp. apply count_filter_nil. now apply release_trace_ignored. }
  change (GetConnection MYSQL (mkParam url user password)
            :: (query_requests (Some c) database user ++ trace w)
               ++ release_trace (Some c) None (rs (final w)))
    with ([GetConnection MYSQL (mkParam url user password)]
            ++ (query_requests (Some c) database user ++ trace w)
               ++ release_trace (Some c) None (rs (final w))).
  rewrite !count_app, !Hreq, !Hrel by (repeat split; intros; reflexivity).
  rewrite Hn, Hg. cbn. split; lia.
Qed.

(** The loop over names that are read and then a cursor that breaks. *)
Lemma while_next_cursor_then tablePattern names tail e :
  compiles tablePattern ->
  breaks tail = Some e ->
  forall f,
    outcome (while_next tablePattern (cursor_then names tail) f) = Throw e /\
    count is_Next (trace (while_next tablePattern (cursor_then names tail) f))
      = S (List.length names).
Proof.
  intros (r & p & -> & Hc) Hb.
  induction names as [ | n rest IH]; intros f.
  - cbn [cursor_then List.length].
    destruct tail as [ | msg | [[nm | ] | msg] rest']; try discriminate Hb;
      injection Hb as <-; cbn [while_next]; unfold Pattern_matches;
      run_monad; rewrite ?Hc; cbn; split; reflexivity.
  - cbn [cursor_then while_next List.length].
    unfold Pattern_matches. run_monad. rewrite !Hc. cbn.
    destruct (Matcher_matches p n); cbn;
      match goal with
      | |- context [while_next ?tp ?c ?f'] =>
          destruct (IH f') as [Ho Hn];
          destruct (while_next tp c f') as [t2 s2 o2];
          cbn in Ho, Hn |- *; unfold count in *; cbn;
          rewrite Hn; split; [exact Ho | reflexivity]
      end.
Qed.

(** X7.  With a table pattern that compiles, when the cursor yields names
    and then breaks ([next()] or [getString] throws, or a name is SQL
    [NULL]), [getMySqlTables] throws the error of that row, however many
    names matched before it and whatever the cursor would have yielded
    after it (unless a close call throws an exception that is not an
    [SQLException], which is then thrown in its place); the cursor was
    advanced once per name read and once more. *)
Theorem getMySqlTables_first_bad_row provider
    url database tablePattern user password c r names tail e :
  provider_getConnection provider MYSQL (mkParam url user password)
    = Return (Some c) ->
  query_result c database user = Some r ->
  rs_cursor r = cursor_then names tail ->
  compiles tablePattern ->
  breaks tail = Some e ->
  let res := getMySqlTables provider url database tablePattern user password in
  outcome res = after_release (Some c) None (Some r) (Throw e) /\
  (release_escape (Some c) None (Some r) = None -> outcome res = Throw e) /\
  count is_Next (trace res) = S (List.length names).
Proof.
  intros Hc Hq Hcur Hpat Hb. cbv zeta.
  rewrite getMySqlTables_run. cbv zeta. rewrite Hc. cbn [trace outcome].
  rewrite metadata_scan_rs, Hq.
  rewrite (metadata_scan_rows c database tablePattern user r [] Hq).
  cbv zeta. cbn [trace final outcome]. rewrite Hcur.
  destruct (while_next_cursor_then tablePattern names tail e Hpat Hb
              (mkFrame [] (Some r))) as [Ho Hn].
  set (w := while_next tablePattern (cursor_then names tail)
              (mkFrame [] (Some r))) in *.
  rewrite Ho. split; [reflexivity | ].
  split; [unfold after_release; now intros -> | ].
  change (GetConnection MYSQL (mkParam url user password)
            :: (query_requests (Some c) database user ++ trace w)
               ++ release_trace (Some c) None (Some r))
    with ([GetConnection MYSQL (mkParam url user password)]
            ++ (query_requests (Some c) database user ++ trace w)
               ++ release_trace (Some c) None (Some r)).
  rewrite !count_app, Hn.
  rewrite (count_filter_nil is_Next (release_trace _ _ _))
    by (apply release_trace_ignored; repeat split).
  assert (Hreq : count is_Next (query_requests (Some c) database user) = 0).
  { unfold query_requests, count. cbn.
    destruct (conn_getMetaData c); [ | reflexivity].
    destruct user; reflexivity. }
  rewrite Hreq. cbn. lia.
Qed.

(** X8.  A table pattern that is [null] or does not compile is noticed only
    when a row arrives: with a cursor that yields nothing the method
    returns the empty list; with a first row whose name can be read it
    throws [NullPointerException] or [PatternSyntaxException].  (An
    exception that is not an [SQLException] and that a close call throws
    would replace either; there is none when the close calls return or
    throw an [SQLException].) *)
Theorem getMySqlTables_pattern_checked_at_first_row provider
    url database tablePattern user password c r :
  provider_getConnection provider MYSQL (mkParam url user password)
    = Return (Some c) ->
  query_result c database user = Some r ->
  ~ compiles tablePattern ->
  let res := getMySqlTables provider url database tablePattern user password in
  (rs_cursor r = Exhausted ->
   outcome res = after_release (Some c) None (Some r) (Return [])) /\
  (forall name rest, rs_cursor r = Row (Return name) rest ->
     outcome res =
       after_release (Some c) None (Some r)
         (Throw (pattern_error tablePattern))) /\
  (release_escape (Some c) None (Some r) = None ->
   (rs_cursor r = Exhausted -> outcome res = Return []) /\
   (forall name rest, rs_cursor r = Row (Return name) rest ->
      outcome res = Throw (pattern_error tablePattern))).
Proof.
  intros Hc Hq Hbad. cbv zeta.
  rewrite getMySqlTables_run. cbv zeta. rewrite Hc. cbn [outcome].
  rewrite metadata_scan_rs, Hq.
  rewrite (metadata_scan_rows c database tablePattern user r [] Hq).
  cbv zeta. cbn [final outcome].
  assert (Hrow : forall name rest, rs_cursor r = Row (Return name) rest ->
            outcome (while_next tablePattern (rs_cursor r)
                       (mkFrame [] (Some r)))
            = Throw (pattern_error tablePattern)).
  { intros name rest ->. cbn [while_next]. unfold Pattern_matches.
    destruct tablePattern as [re | ].
    + destruct (Pattern_compile re) as [pt | ] eqn:Hcomp.
      * exfalso. apply Hbad. exists re, pt. auto.
      * run_monad. rewrite Hcomp. reflexivity.
    + reflexivity. }
  split; [intros ->; reflexivity | ].
  split; [intros name rest Hrest; now rewrite (Hrow name rest Hrest) | ].
  intros Hquiet. unfold after_release. rewrite Hquiet. split.
  - intros ->. reflexivity.
  - intros name rest Hrest. now rewrite (Hrow name rest Hrest).
Qed.

End Paths.

(* ================================================================== *)
(** ** The delegating methods *)

Section Delegation.
Context {DTO Param : Type} {PM : ProcessorMethods DTO Param}.

Lemma on_processor_supported {A} next k method
    (body : ProcessorClass -> Outcome A) :
  supported k = true ->
  exists p,
    getDatasourceProcessor (fst (clinit next)) (Some k) = Return (Some p) /\
    class_of k = Some (processor_class p) /\
    on_processor (Param := Param) (fst (clinit next)) (Some k) method body =
      ([Invoked p method], body (processor_class p)).
Proof.
  intros Hk. destruct k; try discriminate Hk;
    (eexists; split; [reflexivity | split; reflexivity]).
Qed.

Lemma on_processor_unsupported {A} st k method
    (body : ProcessorClass -> Outcome A) :
  supported k = false ->
  on_processor (Param := Param) st (Some k) method body =
    ([], Throw (IllegalArgumentException
                  ("datasource type illegal:" ++ DbType_toString k))).
Proof.
  intros Hk. destruct k; try discriminate Hk. reflexivity.
Qed.

(** X1.  For an engine kind outside the nine, [getDatasourceProcessor]
    and every method that delegates through it throw
    [IllegalArgumentException] naming the kind, and for a [null] kind or a
    [null] parameter object [NullPointerException]; in both cases no
    processor has been called and nothing has been logged. *)
Theorem delegation_rejects_before_any_call (st : Statics) (debug : bool)
    (k : option DbType) (dto : DTO) (json : jstring) (cp : option Param) :
  (forall t, k = Some t -> supported t = false) ->
  DTO_getType dto = k ->
  let e := match k with
           | Some t => IllegalArgumentException
                         ("datasource type illegal:" ++ DbType_toString t)
           | None => NullPointerException
           end in
  getDatasourceProcessor st k = Throw e /\
  getDatasourceUniqueId st cp k = ([], Throw e) /\
  checkDatasourceParam st (Some dto) = ([], Throw e) /\
  buildConnectionParams st debug (Some dto) = ([], Throw e) /\
  buildConnectionParams_json st k json = ([], Throw e) /\
  getJdbcUrl st k cp = ([], Throw e) /\
  buildDatasourceParamDTO st k json = ([], Throw e) /\
  checkDatasourceParam st None = ([], Throw NullPointerException) /\
  buildConnectionParams st debug None = ([], Throw NullPointerException).
Proof.
  intros Hk Hty. cbv zeta.
  unfold checkDatasourceParam, buildConnectionParams,
    buildConnectionParams_json, getJdbcUrl, buildDatasourceParamDTO,
    getDatasourceUniqueId.
  rewrite Hty. destruct k as [t | ].
  - specialize (Hk t eq_refl).
    rewrite !(on_processor_unsupported st t) by assumption.
    destruct t; try discriminate Hk. repeat split.
  - repeat split.
Qed.

(** X9.  For a supported engine kind the five delegating methods of lines
    72-100 call the one processor object that [getDatasourceProcessor]
    returns for the kind, each exactly one method of it, and hand back what
    that method returns or throws. *)
Theorem delegation_reaches_the_singleton (next : nat) (k : DbType)
    (dto : DTO) (json : jstring) (cp : option Param) :
  supported k = true ->
  DTO_getType dto = Some k ->
  let st := fst (clinit next) in
  exists p,
    getDatasourceProcessor st (Some k) = Return (Some p) /\
    class_of k = Some (processor_class p) /\
    checkDatasourceParam st (Some dto) =
      ([Invoked p "checkDatasourceParam"],
       impl_checkDatasourceParam (processor_class p) dto) /\
    buildConnectionParams st false (Some dto) =
      ([Invoked p "createConnectionParams"],
       impl_createConnectionParams (processor_class p) dto) /\
    buildConnectionParams_json st (Some k) json =
      ([Invoked p "createConnectionParams"],
       impl_createConnectionParamsJson (processor_class p) json) /\
    getJdbcUrl st (Some k) cp =
      ([Invoked p "getJdbcUrl"], impl_getJdbcUrl (processor_class p) cp) /\
    buildDatasourceParamDTO st (Some k) json =
      ([Invoked p "createDatasourceParamDTO"],
       impl_createDatasourceParamDTO (processor_class p) json).
Proof.
  intros Hk Hty. cbv zeta.
  destruct (on_processor_supported next k "checkDatasourceParam"
              (fun c => impl_checkDatasourceParam c dto) Hk)
    as (p & Hp & Hcls & _).
  exists p. split; [exact Hp | ]. split; [exact Hcls | ].
  unfold checkDatasourceParam, buildConnectionParams,
    buildConnectionParams_json, getJdbcUrl, buildDatasourceParamDTO,
    on_processor.
  rewrite Hty, Hp. repeat split.
  destruct (impl_createConnectionParams (processor_class p) dto);
    reflexivity.
Qed.

(** X10.  In [buildConnectionParams] the debug switch decides the log line
    and nothing else: the processor call and the outcome are the same with
    it on and off; with it off nothing is logged; with it on one line is
    logged, after the call, when the processor returned, and none when it
    threw. *)
Theorem buildConnectionParams_logging (st : Statics) (dto : option DTO) :
  let quiet := buildConnectionParams st false dto in
  let loud := buildConnectionParams st true dto in
  snd loud = snd quiet /\
  filter is_LoggerInfo (fst quiet) = [] /\
  fst loud =
    fst quiet ++
    match fst quiet, snd quiet with
    | _ :: _, Return connectionParams =>
        [LoggerInfo "parameters map:{}" connectionParams]
    | _, _ => []
    end.
Proof.
  cbv zeta. unfold buildConnectionParams, on_processor.
  destruct dto as [d | ]; [ | repeat split].
  destruct (getDatasourceProcessor st (DTO_getType d)) as [[p | ] | e];
    [ | repeat split | repeat split].
  destruct (impl_createConnectionParams (processor_class p) d);
    repeat split.
Qed.

(** X15.  For a supported engine kind [getDatasourceUniqueId] computes
    nothing itself: it calls the method of that name on the one processor
    object of the kind, once, with the connection parameter and the kind it
    was given, and hands back what the processor returns or throws. *)
Theorem getDatasourceUniqueId_delegates (next : nat) (k : DbType)
    (connectionParam : option Param) :
  supported k = true ->
  let st := fst (clinit next) in
  exists p,
    getDatasourceProcessor st (Some k) = Return (Some p) /\
    class_of k = Some (processor_class p) /\
    getDatasourceUniqueId st connectionParam (Some k) =
      ([Invoked p "getDatasourceUniqueId"],
       impl_getDatasourceUniqueId (processor_class p) connectionParam
         (Some k)).
Proof.
  intros Hk. cbv zeta. unfold getDatasourceUniqueId.
  destruct (on_processor_supported next k "getDatasourceUniqueId"
              (fun c => impl_getDatasourceUniqueId c connectionParam (Some k))
              Hk)
    as (p & Hp & Hcls & Hrun).
  exists p. auto.
Qed.

End Delegation.

(* ================================================================== *)
(** ** The task form *)

Lemma strict_eq_eq (a b : Databus.JsVal) :
  Databus.strict_eq a b = true <-> a = b.
Proof.
  destruct a, b; cbn; split; intros H; try discriminate H; try reflexivity.
  - apply Z.eqb_eq in H. now subst.
  - injection H as ->. apply Z.eqb_refl.
  - apply String.eqb_eq in H. now subst.
  - injection H as ->. apply String.eqb_refl.
Qed.

(** A loop that only pushes is an append. *)
Lemma forEach_appends {A C} (l : list A) (body : A -> list C -> list C)
    (g : A -> list C) :
  (forall a acc, body a acc = acc ++ g a) ->
  forall init, Databus.forEach l body init = init ++ flat_map g l.
Proof.
  intros Hbody. unfold Databus.forEach.
  induction l as [ | a l IH]; intros init; cbn.
  - now rewrite app_nil_r.
  - rewrite IH, Hbody. now rewrite <- app_assoc.
Qed.

(** Two nested loops that push the inner element when a test holds. *)
Lemma forEach_nested_filter {A B} (outer : list A) (inner : list B)
    (test : A -> B -> bool) :
  Databus.forEach outer (fun a =>
    Databus.forEach inner (fun b acc =>
      if test a b then Databus.push b acc else acc)) [] =
  flat_map (fun a => filter (test a) inner) outer.
Proof.
  rewrite (forEach_appends outer _ (fun a => filter (test a) inner)).
  - reflexivity.
  - intros a acc.
    rewrite (forEach_appends inner _
               (fun b => if test a b then [b] else [])).
    + f_equal. induction inner as [ | b inner IH]; cbn; [reflexivity | ].
      rewrite IH. now destruct (test a b).
    + intros b acc'. unfold Databus.push.
      destruct (test a b); [reflexivity | now rewrite app_nil_r].
Qed.

Section Form.
Variable LP : Type.
Variable i18n_t : string -> string.
Variable global_t : string -> string.
Variable searchTree : Databus.Node -> Databus.JsVal -> option Databus.Node.

(** What the search loop collects. *)
Lemma isResourceId_of_In (d : Databus.Data LP) (found : Databus.Node) :
  In found (Databus.isResourceId_of LP searchTree d) <->
  exists v v1,
    In v (Databus.resourceList d) /\ In v1 (Databus.options d) /\
    searchTree v1 v = Some found.
Proof.
  unfold Databus.isResourceId_of.
  rewrite (forEach_appends (Databus.resourceList d) _
             (fun v => flat_map (fun v1 => match searchTree v1 v with
                                           | Some f => [f]
                                           | None => []
                                           end) (Databus.options d))).
  - cbn. rewrite in_flat_map. split.
    + intros (v & Hv & Hin). apply in_flat_map in Hin as (v1 & Hv1 & Hin).
      exists v, v1. repeat split; auto.
      destruct (searchTree v1 v) as [f | ]; [ | contradiction].
      destruct Hin as [-> | []]. reflexivity.
    + intros (v & v1 & Hv & Hv1 & Hs). exists v. split; [assumption | ].
      apply in_flat_map. exists v1. split; [assumption | ].
      rewrite Hs. now left.
  - intros v acc.
    apply (forEach_appends (Databus.options d) _
             (fun v1 => match searchTree v1 v with
                        | Some f => [f]
                        | None => []
                        end)).
    intros v1 acc'. unfold Databus.push.
    destruct (searchTree v1 v); [reflexivity | now rewrite app_nil_r].
Qed.

(** X11.  [_verification] returns [true] exactly when the editor exists
    and holds a script, the parameter sub-form accepts and no selected
    resource is marked as missing; then, and only then, it emits
    [on-params], once, with the selected resources as [{id: v}] objects in
    their order, the custom parameters and the text of the editor, and
    warns of nothing.  It warns at most once. *)
Theorem verification_stores_iff_valid (editor : option string)
    (verifProp : bool) (d : Databus.Data LP) :
  let r := Databus._verification LP i18n_t editor verifProp d in
  (snd r = Databus.Returns true <->
   exists v, editor = Some v /\ v <> "" /\ verifProp = true /\
             Databus.noRes d = []) /\
  (snd r = Databus.Returns true ->
   exists v, editor = Some v /\
     filter Databus.is_EmitOnParams (fst r) =
       [Databus.EmitOnParams
          (map Databus.mkRef (Databus.resourceList d))
          (Databus.localParams d) v] /\
     filter Databus.is_Warning (fst r) = []) /\
  (snd r <> Databus.Returns true ->
   filter Databus.is_EmitOnParams (fst r) = []) /\
  List.length (filter Databus.is_Warning (fst r)) <= 1.
Proof.
  cbv zeta. unfold Databus._verification.
  destruct editor as [v | ].
  - destruct (String.eqb v "") eqn:Hv.
    + apply String.eqb_eq in Hv. subst v. cbn. repeat split; auto.
      * intros H. discriminate H.
      * intros (v & Hed & Hne & _). injection Hed as <-. now elim Hne.
      * intros H. discriminate H.
    + apply String.eqb_neq in Hv.
      destruct verifProp; cbn.
      * destruct (Databus.noRes d) as [ | x rest] eqn:Hn; cbn.
        -- repeat split; auto.
           ++ intros _. exists v. auto.
           ++ intros _. exists v. auto.
           ++ intros H. now elim H.
        -- repeat split; auto.
           ++ intros H. discriminate H.
           ++ intros (v' & _ & _ & _ & H). discriminate H.
           ++ intros H. discriminate H.
      * repeat split; auto.
        -- intros H. discriminate H.
        -- intros (v' & _ & _ & H & _). discriminate H.
        -- intros H. discriminate H.
  - cbn. repeat split; auto.
    + intros H. discriminate H.
    + intros (v & H & _). discriminate H.
    + intros H. discriminate H.
Qed.

(** What the watcher leaves in [noRes]. *)
Lemma watch_resourceIdArr_noRes (arr : list Databus.Resource)
    (d : Databus.Data LP) (x : Databus.Resource) :
  In x (Databus.noRes (Databus.watch_resourceIdArr LP arr d)) <->
  In x (Databus.allNoResources d) /\
  exists item, In item arr /\ Databus.r_id item = Databus.r_id x.
Proof.
  unfold Databus.watch_resourceIdArr. cbn.
  rewrite (forEach_nested_filter arr (Databus.allNoResources d)
             (fun item item1 =>
                Databus.strict_eq (Databus.r_id item) (Databus.r_id item1))).
  rewrite in_flat_map. split.
  - intros (item & Hitem & Hf). apply filter_In in Hf as [Hx Heq].
    apply strict_eq_eq in Heq. eauto.
  - intros (Hx & item & Hitem & Heq). exists item. split; [assumption | ].
    apply filter_In. split; [assumption | ]. now apply strict_eq_eq.
Qed.

(** X12.  After the watcher has run, [noRes] holds exactly those entries of
    [allNoResources] whose [id] is the [id] of an entry of the watched
    array, whatever [noRes] held before; nothing else of the data
    changes. *)
Theorem watcher_marks_missing (arr : list Databus.Resource)
    (d : Databus.Data LP) :
  let d' := Databus.watch_resourceIdArr LP arr d in
  (forall x, In x (Databus.noRes d') <->
     In x (Databus.allNoResources d) /\
     exists item, In item arr /\ Databus.r_id item = Databus.r_id x) /\
  (Databus.noRes d' = [] <->
   forall item x, In item arr -> In x (Databus.allNoResources d) ->
                  Databus.r_id item <> Databus.r_id x) /\
  Databus.allNoResources d' = Databus.allNoResources d /\
  Databus.options d' = Databus.options d /\
  Databus.resourceList d' = Databus.resourceList d /\
  Databus.localParams d' = Databus.localParams d.
Proof.
  cbv zeta. unfold Databus.watch_resourceIdArr. cbn.
  rewrite (forEach_nested_filter arr (Databus.allNoResources d)
             (fun item item1 =>
                Databus.strict_eq (Databus.r_id item) (Databus.r_id item1))).
  assert (Hin : forall x,
            In x (flat_map
                    (fun a => filter
                       (fun item1 => Databus.strict_eq (Databus.r_id a)
                                       (Databus.r_id item1))
                       (Databus.allNoResources d)) arr) <->
            In x (Databus.allNoResources d) /\
            exists item, In item arr /\ Databus.r_id item = Databus.r_id x).
  { intros x. rewrite in_flat_map. split.
    - intros (item & Hitem & Hf). apply filter_In in Hf as [Hx Heq].
      apply strict_eq_eq in Heq. eauto.
    - intros (Hx & item & Hitem & Heq). exists item. split; [assumption | ].
      apply filter_In. split; [assumption | ]. now apply strict_eq_eq. }
  split; [exact Hin | ].
  split; [ | repeat split].
  split.
  - intros Hnil item x Hitem Hx Heq.
    assert (Hx' : In x []).
    { rewrite <- Hnil. apply Hin. eauto. }
    exact Hx'.
  - intros Hnone.
    destruct (flat_map _ arr) as [ | y rest] eqn:Hfm; [reflexivity | ].
    destruct (proj1 (Hin y) (or_introl eq_refl)) as (Hy & item & Hitem & Heq).
    elim (Hnone item y Hitem Hy Heq).
Qed.

(** The selected values that the tree search did not return. *)
Lemma diffSet_In (d : Databus.Data LP) (item : Databus.JsVal) :
  In item
     (filter (fun i => negb (existsb (Databus.strict_eq i)
                               (map Databus.n_id
                                  (Databus.isResourceId_of LP searchTree d))))
             (Databus.resourceList d)) <->
  In item (Databus.resourceList d) /\
  forall found, In found (Databus.isResourceId_of LP searchTree d) ->
                Databus.n_id found <> item.
Proof.
  rewrite filter_In. split.
  - intros [Hin Hneg]. split; [assumption | ].
    intros found Hfound Heq.
    apply negb_true_iff in Hneg.
    assert (Hex : existsb (Databus.strict_eq item)
                    (map Databus.n_id
                       (Databus.isResourceId_of LP searchTree d)) = true).
    { apply existsb_exists. exists (Databus.n_id found). split.
      - now apply in_map.
      - apply strict_eq_eq. now symmetry. }
    rewrite Hex in Hneg. discriminate Hneg.
  - intros [Hin Hnone]. split; [assumption | ].
    apply negb_true_iff.
    destruct (existsb _ _) eqn:Hex; [ | reflexivity].
    apply existsb_exists in Hex as (v & Hv & Heq).
    apply in_map_iff in Hv as (found & <- & Hfound).
    apply strict_eq_eq in Heq. elim (Hnone found Hfound). now symmetry.
Qed.

(** X13.  [dataProcess] leaves the form as it is unless some backfilled
    resource stands for a selected resource that the tree search did not
    return; then [allNoResources] becomes exactly those backfilled
    resources and the tree gets one more root at its end, the node
    "Unauthorized or deleted resources" with id -1, whose children are
    those resources marked [isNew].  The selection, the custom parameters
    and [noRes] never change, and [Array.prototype.diff] is assigned exactly
    when something is selected. *)
Theorem dataProcess_appends_one_node (backResource : list Databus.Resource)
    (d : Databus.Data LP) :
  let r := Databus.dataProcess LP global_t searchTree backResource d in
  (fst r = true <-> Databus.resourceList d <> []) /\
  Databus.resourceList (snd r) = Databus.resourceList d /\
  Databus.localParams (snd r) = Databus.localParams d /\
  Databus.noRes (snd r) = Databus.noRes d /\
  ((exists x, Databus.orphan LP searchTree backResource d x) ->
   (forall x, In x (Databus.allNoResources (snd r)) <->
              Databus.orphan LP searchTree backResource d x) /\
   Databus.options (snd r) =
     Databus.options d ++
     [Databus.noResources_node global_t
        (map Databus.child_of (Databus.allNoResources (snd r)))]) /\
  (~ (exists x, Databus.orphan LP searchTree backResource d x) ->
   snd r = d).
Proof.
  cbv zeta. unfold Databus.dataProcess.
  destruct (0 <? List.length (Databus.resourceList d))%nat eqn:Hguard.
  2:{ assert (Hrl : Databus.resourceList d = []).
      { destruct (Databus.resourceList d); [reflexivity | discriminate]. }
      cbn. split; [ | split; [ | split; [ | split; [ | split ] ] ] ];
        try reflexivity.
      - split; intros H; [discriminate H | now elim H].
      - intros (x & _ & item & Hin & _). rewrite Hrl in Hin. contradiction. }
  assert (Hrl : Databus.resourceList d <> []).
  { intros H. rewrite H in Hguard. discriminate Hguard. }
  - 
    set (diffSet :=
           filter (fun i => negb (existsb (Databus.strict_eq i)
                                    (map Databus.n_id
                                       (Databus.isResourceId_of LP searchTree
                                          d))))
                  (Databus.resourceList d)).
    set (test := fun (item : Databus.JsVal) (item1 : Databus.Resource) =>
           Databus.strict_eq item (Databus.r_id item1)
           || Databus.strict_eq item (Databus.r_res item1)).
    set (optionsCmp :=
           if (0 <? List.length diffSet)%nat
           then Databus.forEach diffSet
                  (fun item => Databus.forEach backResource
                     (fun item1 acc =>
                        if Databus.strict_eq item (Databus.r_id item1)
                           || Databus.strict_eq item (Databus.r_res item1)
                        then Databus.push item1 acc else acc)) []
           else []).
    assert (Hcmp : optionsCmp
                   = flat_map (fun item => filter (test item) backResource)
                              diffSet).
    { unfold optionsCmp. destruct diffSet as [ | i0 ds]; [reflexivity | ].
      cbn [List.length Nat.ltb Nat.leb].
      apply (forEach_nested_filter (i0 :: ds) backResource test). }
    assert (Hin : forall x, In x optionsCmp <->
                    Databus.orphan LP searchTree backResource d x).
    { intros x. rewrite Hcmp, in_flat_map. unfold Databus.orphan. split.
      - intros (item & Hitem & Hf). apply filter_In in Hf as [Hx Ht].
        apply diffSet_In in Hitem as [Hsel Hnone].
        split; [assumption | ]. exists item. repeat split; auto.
        unfold test in Ht. apply orb_true_iff in Ht as [Ht | Ht];
          apply strict_eq_eq in Ht; auto.
      - intros (Hx & item & Hsel & Hnone & Heq). exists item. split.
        + apply diffSet_In. auto.
        + apply filter_In. split; [assumption | ]. unfold test.
          apply orb_true_iff.
          destruct Heq as [-> | ->]; [left | right]; now apply strict_eq_eq. }
    clearbody optionsCmp. clear Hcmp.
    destruct optionsCmp as [ | x0 rest] eqn:Hopt.
    + cbn. split; [ | split; [ | split; [ | split; [ | split ] ] ] ];
        try reflexivity.
      * split; intros _; [exact Hrl | reflexivity].
      * intros (x & Hx). apply Hin in Hx. contradiction.
    + cbn [List.length Nat.ltb Nat.leb fst snd].
      cbn [Databus.resourceList Databus.localParams Databus.noRes
           Databus.allNoResources Databus.options].
      split; [ | split; [ | split; [ | split; [ | split ] ] ] ];
        try reflexivity.
      * split; intros _; [exact Hrl | reflexivity].
      * intros _. split; [exact Hin | reflexivity].
      * intros Hnone. elim Hnone. exists x0. apply Hin. now left.
Qed.

(** The computed array is made of the nodes the search loop collects. *)
Lemma resourceIdArr_In (d : Databus.Data LP) (item : Databus.Resource) :
  In item (Databus.resourceIdArr LP searchTree d) <->
  exists found,
    In found (Databus.isResourceId_of LP searchTree d) /\
    item = Databus.mkResource (Databus.n_id found) (Databus.n_name found)
             (Databus.n_fullName found).
Proof.
  unfold Databus.resourceIdArr.
  destruct (0 <? List.length (Databus.resourceList d))%nat eqn:Hg.
  - rewrite in_map_iff. split; intros (found & H1 & H2); exists found;
      auto.
  - split; [contradiction | ].
    intros (found & Hfound & _).
    apply isResourceId_of_In in Hfound as (v & _ & Hv & _).
    destruct (Databus.resourceList d); [contradiction | discriminate Hg].
Qed.

(** X14.  With a script in the editor and parameters that the sub-form
    accepts, and [noRes] as the watcher leaves it for the computed
    [resourceIdArr], [_verification] returns [false] exactly when the tree
    search finds, for some selected resource, a node whose [id] is the [id]
    of an entry of [allNoResources]; it then warns "Please delete all
    non-existent resources" and emits nothing.  Otherwise it returns
    [true]. *)
Theorem verification_blocked_by_missing (v : string) (d : Databus.Data LP) :
  v <> "" ->
  let d' := Databus.watch_resourceIdArr LP
              (Databus.resourceIdArr LP searchTree d) d in
  let r := Databus._verification LP i18n_t (Some v) true d' in
  (snd r = Databus.Returns false <->
   exists sel root found x,
     In sel (Databus.resourceList d) /\ In root (Databus.options d) /\
     searchTree root sel = Some found /\
     In x (Databus.allNoResources d) /\
     Databus.n_id found = Databus.r_id x) /\
  (snd r = Databus.Returns false ->
   filter Databus.is_Warning (fst r) =
     [Databus.Warning (i18n_t "Please delete all non-existent resources")] /\
   filter Databus.is_EmitOnParams (fst r) = []) /\
  (snd r <> Databus.Returns false -> snd r = Databus.Returns true).
Proof.
  intros Hv. cbv zeta.
  pose proof (watch_resourceIdArr_noRes
                (Databus.resourceIdArr LP searchTree d) d) as Hin.
  set (d' := Databus.watch_resourceIdArr LP
               (Databus.resourceIdArr LP searchTree d) d) in *.
  unfold Databus._verification.
  apply String.eqb_neq in Hv. rewrite Hv. cbn [negb].
  destruct (Databus.noRes d') as [ | x rest] eqn:Hn; cbn.
  - split; [ | split]; [ | intros H; discriminate H | reflexivity].
    split; [intros H; discriminate H | ].
    intros (sel & root & found & x & Hsel & Hroot & Hs & Hx & Heq).
    exfalso.
    assert (Hx' : In x []).
    { apply Hin. split; [assumption | ].
      exists (Databus.mkResource (Databus.n_id found) (Databus.n_name found)
                (Databus.n_fullName found)).
      split; [ | exact Heq].
      apply resourceIdArr_In. exists found. split; [ | reflexivity].
      apply isResourceId_of_In. eauto. }
    exact Hx'.
  - split; [ | split]; [ | auto | intros H; now elim H].
    split; [ | reflexivity].
    intros _.
    destruct (proj1 (Hin x) (or_introl eq_refl))
      as (Hx & item & Hitem & Heq).
    apply resourceIdArr_In in Hitem as (found & Hfound & ->).
    apply isResourceId_of_In in Hfound as (sel & root & Hsel & Hroot & Hs).
    exists sel, root, found, x. auto.
Qed.

End Form.

(* ================================================================== *)
(** ** More concrete runs *)

(** Closing what was opened, and the leak: on the server whose cursor
    throws an unchecked exception when closed, the cursor's close call is
    made and the connection's is not. *)
Lemma getMySqlTables_release_counts_witness :
  let r := Example.run (Example.provider Example.healthy)
             (Some "^orders.*$") Example.alice in
  let r' := Example.run (Example.provider Example.leaking)
              (Some "^orders.*$") Example.alice in
  (count is_CloseConnection (trace r) = 1 /\
   count is_CloseResultSet (trace r) = 1 /\
   count is_CloseStatement (trace r) = 0) /\
  (count is_CloseConnection (trace r') = 0 /\
   count is_CloseResultSet (trace r') = 1 /\
   count is_CloseStatement (trace r') = 0).
Proof.
  cbv zeta. split.
  - destruct (getMySqlTables_release_counts
                (RX := RegexFragment.regex) (JS := Example.ascii_strings)
                (Example.provider Example.healthy) Example.url
                Example.database (Some "^orders.*$") Example.alice
                Example.secret) as (Hc & Hrs & Hst & _).
    split; [exact Hc | split; [exact Hrs | exact Hst]].
  - destruct (getMySqlTables_release_counts
                (RX := RegexFragment.regex) (JS := Example.ascii_strings)
                (Example.provider Example.leaking) Example.url
                Example.database (Some "^orders.*$") Example.alice
                Example.secret) as (Hc & Hrs & Hst & _).
    split; [exact Hc | split; [exact Hrs | exact Hst]].
Defined.

(** The same tables on a server whose release calls fail with an
    [SQLException] and on one whose release calls succeed. *)
Lemma getMySqlTables_close_behaviour_irrelevant_witness :
  let r1 := Example.run (Example.provider Example.healthy)
              (Some "^orders.*$") Example.alice in
  let r2 := Example.run (Example.provider Example.healthy_quiet)
              (Some "^orders.*$") Example.alice in
  outcome r1 = outcome r2 /\ calls (trace r1) = calls (trace r2).
Proof.
  apply (getMySqlTables_close_behaviour_irrelevant
           (RX := RegexFragment.regex) (JS := Example.ascii_strings)
           (Example.provider Example.healthy)
           (Example.provider Example.healthy_quiet)
           Example.url Example.database (Some "^orders.*$") Example.alice
           Example.secret Example.healthy Example.healthy_quiet
           eq_refl eq_refl).
  - intros catalog schemaPattern tableNamePattern types. cbn.
    destruct (Example.owned_by_alice schemaPattern types); reflexivity.
  - split; [reflexivity | ].
    intros dmd Hd catalog schemaPattern tableNamePattern types r.
    injection Hd as <-. cbn.
    destruct (Example.owned_by_alice schemaPattern types);
      intros Hr; injection Hr as <-; reflexivity.
  - split; [reflexivity | ].
    intros dmd Hd catalog schemaPattern tableNamePattern types r.
    injection Hd as <-. cbn.
    destruct (Example.owned_by_alice schemaPattern types);
      intros Hr; injection Hr as <-; reflexivity.
Defined.

(** Three names, two of them matching: four [next()], five [getString]. *)
Lemma getMySqlTables_reads_witness :
  let tr := trace (Example.run (Example.provider Example.healthy)
                     (Some "^orders.*$") Example.alice) in
  count is_Next tr = 4 /\ count is_GetString tr = 5.
Proof.
  apply (getMySqlTables_reads
           (RX := RegexFragment.regex) (JS := Example.ascii_strings)
           (Example.provider Example.healthy) Example.url Example.database
           (Some "^orders.*$") Example.alice Example.secret Example.healthy
           (mkResultSet (cursor_of Example.three_tables) Example.cursor_gone)
           Example.three_tables eq_refl eq_refl eq_refl).
  right. eexists. eexists. split; reflexivity.
Defined.

(** One name read, then [next()] throws. *)
Lemma getMySqlTables_first_bad_row_witness :
  let r := Example.run (Example.provider Example.breaking)
             (Some "^orders.*$") Example.alice in
  outcome r = Throw (SQLException "link failure") /\
  count is_Next (trace r) = 2.
Proof.
  assert (Hpat : compiles (RX := RegexFragment.regex) (Some "^orders.*$"))
    by (eexists; eexists; split; reflexivity).
  destruct (getMySqlTables_first_bad_row
              (RX := RegexFragment.regex) (JS := Example.ascii_strings)
              (Example.provider Example.breaking) Example.url
              Example.database (Some "^orders.*$") Example.alice
              Example.secret Example.breaking
              (mkResultSet (Row (Return (Some "orders"))
                                (NextThrows (SQLException "link failure")))
                           Example.cursor_gone)
              ["orders"] (NextThrows (SQLException "link failure"))
              (SQLException "link failure") eq_refl eq_refl eq_refl
              Hpat eq_refl) as (_ & Hout & Hnext).
  cbv zeta. split; [exact (Hout eq_refl) | exact Hnext].
Defined.

(** The pattern [*orders] has a dangling quantifier: it passes on a server
    without tables and fails at the first row of one with tables. *)
Lemma getMySqlTables_pattern_checked_at_first_row_witness :
  outcome (Example.run (Example.provider Example.empty) (Some "*orders")
             Example.alice) = Return [] /\
  outcome (Example.run (Example.provider Example.healthy) (Some "*orders")
             Example.alice)
    = Throw (PatternSyntaxException "*orders").
Proof.
  assert (Hbad : ~ compiles (RX := RegexFragment.regex) (Some "*orders")).
  { intros (r & p & Hr & Hp). injection Hr as <-. discriminate Hp. }
  split.
  - apply (proj1 (proj2 (proj2
             (getMySqlTables_pattern_checked_at_first_row
                (RX := RegexFragment.regex) (JS := Example.ascii_strings)
                (Example.provider Example.empty) Example.url
                Example.database (Some "*orders") Example.alice
                Example.secret Example.empty
                (mkResultSet Exhausted (Return tt)) eq_refl eq_refl Hbad))
             eq_refl)).
    reflexivity.
  - apply (proj2 (proj2 (proj2
             (getMySqlTables_pattern_checked_at_first_row
                (RX := RegexFragment.regex) (JS := Example.ascii_strings)
                (Example.provider Example.healthy) Example.url
                Example.database (Some "*orders") Example.alice
                Example.secret Example.healthy
                (mkResultSet (cursor_of Example.three_tables)
                             Example.cursor_gone)
                eq_refl eq_refl Hbad))
             eq_refl)
           (Some "orders")
           (cursor_of ["customer_orders"; "orders_archive"])).
    reflexivity.
Defined.

(** A parameter object of the type [ICEBERG], which the form offers. *)
Lemma delegation_rejects_before_any_call_witness :
  checkDatasourceParam (PM := Mock.methods) (fst (clinit 0))
    (Some (Mock.mkDto (Some (OTHER "ICEBERG")) "host" "3306")) =
    ([], Throw (IllegalArgumentException "datasource type illegal:ICEBERG"))
  /\
  buildConnectionParams (PM := Mock.methods) (fst (clinit 0)) true
    (Some (Mock.mkDto (Some (OTHER "ICEBERG")) "host" "3306")) =
    ([], Throw (IllegalArgumentException "datasource type illegal:ICEBERG"))
  /\
  getDatasourceUniqueId (PM := Mock.methods) (fst (clinit 0))
    (Some ("host", "3306")) (Some (OTHER "ICEBERG")) =
    ([], Throw (IllegalArgumentException "datasource type illegal:ICEBERG")).
Proof.
  pose proof (delegation_rejects_before_any_call (PM := Mock.methods)
                (fst (clinit 0)) true (Some (OTHER "ICEBERG"))
                (Mock.mkDto (Some (OTHER "ICEBERG")) "host" "3306")
                None (Some ("host", "3306"))) as H.
  cbv zeta in H.
  destruct H as (_ & H0 & H1 & H2 & _).
  - intros t Ht. injection Ht as <-. reflexivity.
  - reflexivity.
  - split; [assumption | split; assumption].
Defined.

(** A MySQL parameter object: checked and built by the MySQL processor,
    the first object the class creates. *)
Lemma delegation_reaches_the_singleton_witness :
  checkDatasourceParam (PM := Mock.methods) (fst (clinit 0))
    (Some (Mock.mkDto (Some MYSQL) "host" "3306")) =
    ([Invoked (mkProcessor MysqlDatasourceProcessor 0)
        "checkDatasourceParam"], Return tt) /\
  getJdbcUrl (PM := Mock.methods) (fst (clinit 0)) (Some MYSQL)
    (Some ("host", "3306")) =
    ([Invoked (mkProcessor MysqlDatasourceProcessor 0) "getJdbcUrl"],
     Return (Some "jdbc://host:3306")).
Proof.
  destruct (delegation_reaches_the_singleton (PM := Mock.methods) 0 MYSQL
              (Mock.mkDto (Some MYSQL) "host" "3306") None
              (Some ("host", "3306")) eq_refl eq_refl)
    as (p & Hp & _ & H1 & _ & _ & H4 & _).
  cbv zeta in Hp, H1, H4. injection Hp as <-.
  split; assumption.
Defined.

(** The id of a MySQL parameter object is the MySQL processor's. *)
Lemma getDatasourceUniqueId_delegates_witness :
  getDatasourceUniqueId (PM := Mock.methods) (fst (clinit 0))
    (Some ("host", "3306")) (Some MYSQL) =
    ([Invoked (mkProcessor MysqlDatasourceProcessor 0)
        "getDatasourceUniqueId"], Return (Some "host:3306")).
Proof.
  destruct (getDatasourceUniqueId_delegates (PM := Mock.methods) 0 MYSQL
              (Some ("host", "3306")) eq_refl)
    as (p & Hp & _ & H).
  cbv zeta in Hp, H. injection Hp as <-. exact H.
Defined.

(** The form whose selected resource 9 is gone: after [dataProcess] the
    tree has the node of the missing resources, the search finds resource 9
    under it, and the form cannot be stored. *)
Lemma verification_blocked_by_missing_witness :
  snd (Databus._verification (list string) Databus.english (Some "echo 1")
         true
         (Databus.watch_resourceIdArr (list string)
            (Databus.resourceIdArr (list string) Databus.shallow_search
               Databus.form_processed)
            Databus.form_processed))
    = Databus.Returns false.
Proof.
  assert (Hv : "echo 1" <> "") by discriminate.
  apply (proj2 (proj1 (verification_blocked_by_missing (list string)
                         Databus.english Databus.shallow_search
                         "echo 1" Databus.form_processed Hv))).
  exists (Databus.Num 9),
    (Databus.noResources_node Databus.english
       [Databus.child_of
          (Databus.mkResource (Databus.Num 9) (Databus.Str "old.jar")
             (Databus.Str "old.jar"))]),
    (Databus.child_of
       (Databus.mkResource (Databus.Num 9) (Databus.Str "old.jar")
          (Databus.Str "old.jar"))),
    (Databus.mkResource (Databus.Num 9) (Databus.Str "old.jar")
       (Databus.Str "old.jar")).
  cbn. repeat split; auto.
Defined.
